(** * The wallet dashboard: a shallow embedding of its handlers

    The repository is a React component ([App]) that talks to a Solana
    wallet and to an RPC connection.  It comes in two versions: the
    component mounted by [main.tsx] (module [App] below) and
    [src/newApp.tsx] (module [NewApp] below).

    A handler is an [async] arrow function.  It is embedded as a process
    ([Proc]): a tree whose nodes are the React state setters, the console
    and [alert], the awaited calls into the wallet and the RPC connection,
    and the calls of other handlers that are not awaited.  [run] executes
    such a process against an environment that answers every external call
    from the history of the interaction. *)

From Stdlib Require Import Floats String List Bool Arith ZArith Lia.
From Stdlib.Strings Require Import Byte.
Import ListNotations.
Open Scope string_scope.
Open Scope list_scope.

(** ** JavaScript values *)

Module Js.

(** A JS [number] is an IEEE 754 binary64 float. *)
Definition number : Type := float.

(** [a >= b] on numbers; false as soon as one side is [NaN]. *)
Definition ge (a b : number) : bool := (b <=? a)%float.

(** [a < 0]. *)
Definition negative (a : number) : bool := (a <? 0)%float.

(** Truthiness of a number: [0], [-0] and [NaN] are falsy. *)
Definition truthy_number (x : number) : bool :=
  negb (is_zero x || is_nan x).

(** Truthiness of a string: only the empty string is falsy. *)
Definition truthy_string (s : string) : bool :=
  negb (String.eqb s "").

(** [x || d] where [x] is a number, [null] or [undefined]. *)
Definition number_or (x : option number) (d : number) : number :=
  match x with
  | Some v => if truthy_number v then v else d
  | None => d
  end.

(** [x || d] where [x] is a string or [undefined] (the result of an
    optional chain [m?.f]). *)
Definition string_or (x : option string) (d : string) : string :=
  match x with
  | Some v => if truthy_string v then v else d
  | None => d
  end.

(** [new Error(message)], and the errors external calls reject with. *)
Inductive Error : Type := mkError (message : string).

Definition message (e : Error) : string :=
  match e with mkError m => m end.

(** How a promise settles. *)
Inductive Outcome (R : Type) : Type :=
| Fulfilled (v : R)
| Rejected (e : Error).
Arguments Fulfilled {R} v.
Arguments Rejected {R} e.

Definition rejected {R : Type} (o : Outcome R) : bool :=
  match o with Fulfilled _ => false | Rejected _ => true end.

(** How a block of statements completes: normally, by [return], or by
    [throw]. *)
Inductive Completion (A : Type) : Type :=
| Normal (a : A)
| Return
| Throw (e : Error).
Arguments Normal {A} a.
Arguments Return {A}.
Arguments Throw {A} e.

(** [new Date(ms)]: a date is kept as the millisecond argument it was
    built from. *)
Inductive Date : Type := newDate (ms : number).

(** The Unix epoch, [new Date(0)]. *)
Definition epoch : Date := newDate 0%float.

(** [new TextEncoder().encode(s)]; Rocq strings are byte strings, so a
    literal is its own UTF-8 encoding. *)
Definition encode (s : string) : list byte := list_byte_of_string s.

(** An argument of [console.log]. *)
Inductive LogArg : Type :=
| LogString (s : string)
| LogNumber (x : number)
| LogBool (b : bool).

End Js.
Export Js.

(** ** The types of [@solana/web3.js] and [@solana/spl-token] the component uses *)

(** A public key, kept as its base-58 text. *)
Inductive PublicKey : Type := PublicKeyOf (base58 : string).

Definition LAMPORTS_PER_SOL : number := 1000000000%float.

Definition TOKEN_2022_PROGRAM_ID : PublicKey :=
  PublicKeyOf "TokenzQdBNbLqP5VEhdkAS6EPFLC1PHnBqCXEpPxuEb".

Inductive TransactionConfirmationStatus : Type :=
| processed
| confirmed
| finalized.

(** An element of [getSignaturesForAddress]'s result
    ([ConfirmedSignatureInfo]); [blockTime] and [confirmationStatus] are
    optional there. *)
Module ConfirmedSignatureInfo.
Record t : Type := make {
  signature : string;
  blockTime : option number;
  confirmationStatus : option TransactionConfirmationStatus;
  err : option string
}.
End ConfirmedSignatureInfo.

(** An element of [getParsedTokenAccountsByOwner(...).value]: the account's
    address and its [account] record, of which [lamports] and the parsed
    token amount ([data.parsed.info.tokenAmount]) are kept. *)
Module AccountInfo.
Record t : Type := make {
  lamports : number;
  tokenAmount : number
}.
End AccountInfo.

Module TokenAccount.
Record t : Type := make {
  pubkey : PublicKey;
  account : AccountInfo.t
}.
End TokenAccount.

(** The result of [getTokenMetadata] when the mint has metadata. *)
Module TokenMetadata.
Record t : Type := make {
  name : string;
  symbol : string
}.
End TokenMetadata.

(** The result of [getLatestBlockhash]. *)
Module Blockhash.
Record t : Type := make {
  blockhash : string;
  lastValidBlockHeight : number
}.
End Blockhash.

(** The argument of [confirmTransaction]. *)
Module Strategy.
Record t : Type := make {
  blockhash : string;
  lastValidBlockHeight : number;
  signature : string
}.
End Strategy.

(** [SystemProgram.transfer({fromPubkey, lamports, toPubkey})]. *)
Module Transfer.
Record t : Type := make {
  fromPubkey : PublicKey;
  lamports : number;
  toPubkey : PublicKey
}.
End Transfer.

(** [new Transaction()] and [.add(instruction)]. *)
Definition Transaction : Type := list Transfer.t.
Definition newTransaction : Transaction := [].
Definition add (tx : Transaction) (i : Transfer.t) : Transaction := tx ++ [i].

(** ** The component's own types *)

Module Token.
Record t : Type := make {
  name : string;
  pubKey : PublicKey;
  balance : number;
  symbol : string
}.
End Token.

(** The value held by [TransactionItem.status] at run time.  The declared
    type is [TransactionConfirmationStatus | "unknown"]; [undefined] is the
    value an absent [confirmationStatus] has. *)
Inductive Status : Type :=
| status_of (s : TransactionConfirmationStatus)
| unknown
| undefined.

(** The members of the declared type of [TransactionItem.status]. *)
Definition declared_status (s : Status) : bool :=
  match s with
  | status_of _ | unknown => true
  | undefined => false
  end.

(** [x!]: the non-null assertion is erased by the compiler, the value is
    passed on as it is. *)
Definition non_null (x : option TransactionConfirmationStatus) : Status :=
  match x with
  | Some s => status_of s
  | None => undefined
  end.

Module TransactionItem.
Record t : Type := make {
  signature : string;
  time : Date;
  status : Status;
  err : option string
}.
End TransactionItem.

(** ** External calls *)

(** The asynchronous requests to the RPC connection, to
    [@solana/spl-token] and to the wallet, each with the type of its
    result. *)
Inductive Call : Type -> Type :=
| getBalance (publicKey : PublicKey) : Call number
| requestAirdrop (to : PublicKey) (lamports : number) : Call string
| getLatestBlockhash : Call Blockhash.t
| confirmTransaction (strategy : Strategy.t) : Call unit
| getParsedTokenAccountsByOwner (owner programId : PublicKey)
    : Call (list TokenAccount.t)
| getTokenMetadata (address : PublicKey) : Call (option TokenMetadata.t)
| getSignaturesForAddress (address : PublicKey) (limit : nat)
    : Call (list ConfirmedSignatureInfo.t)
| signMessage (message : list byte) : Call (list byte)
| sendTransaction (transaction : Transaction) : Call string.

(** What the page does besides: the console and [alert]. *)
Inductive Effect : Type :=
| console_error (label : string) (error : Error)
| console_log (args : list LogArg)
| alert (text : string).

(** The history of an interaction, oldest event first: every external call
    with the way it settled, and every effect. *)
Inductive Event : Type :=
| Called {R : Type} (c : Call R) (r : Outcome R)
| Did (e : Effect).

Definition Trace : Type := list Event.

(** The outside world: how a call settles, given the history so far. *)
Definition Env : Type := forall R : Type, Call R -> Trace -> Outcome R.

(** The value of [useWallet()] in one render. [signMessage] is a method
    the wallet may lack. *)
Module Wallet.
Record t : Type := make {
  connected : bool;
  publicKey : option PublicKey;
  signMessage : option (list byte -> Call (list byte))
}.
End Wallet.

(** The library functions that run synchronously: [Number(s)],
    [new PublicKey(s)], [publicKey.toBytes()] and [ed25519.verify]. *)
Module Lib.
Record t : Type := make {
  Number : string -> number;
  newPublicKey : string -> Outcome PublicKey;
  toBytes : PublicKey -> list byte;
  ed25519_verify : list byte -> list byte -> list byte -> bool
}.
End Lib.

(** ** Processes *)

Section Runtime.

(** The React state of the component. *)
Variable State : Type.

Inductive Proc (A : Type) : Type :=
| Done (c : Completion A)
| SetState (f : State -> State) (k : Proc A)
| Do (e : Effect) (k : Proc A)
| Await {R : Type} (c : Call R) (k : Outcome R -> Proc A)
| Fork (child : Proc unit) (k : Proc A).

Arguments Done {A} c.
Arguments SetState {A} f k.
Arguments Do {A} e k.
Arguments Await {A R} c k.
Arguments Fork {A} child k.

Definition ret {A : Type} (a : A) : Proc A := Done (Normal a).
Definition return_ {A : Type} : Proc A := Done Return.
Definition throw {A : Type} (e : Error) : Proc A := Done (Throw e).

(** [p; q]: [q] runs when [p] completes normally. *)
Fixpoint bind {A B : Type} (p : Proc A) (f : A -> Proc B) : Proc B :=
  match p with
  | Done (Normal a) => f a
  | Done Return => Done Return
  | Done (Throw e) => Done (Throw e)
  | SetState g k => SetState g (bind k f)
  | Do e k => Do e (bind k f)
  | Await c k => Await c (fun r => bind (k r) f)
  | Fork child k => Fork child (bind k f)
  end.

(** [await c]: the value the promise is fulfilled with, or a [throw] of
    what it is rejected with. *)
Definition await {R : Type} (c : Call R) : Proc R :=
  Await c (fun r =>
    match r with
    | Fulfilled v => ret v
    | Rejected e => throw e
    end).

Definition set (f : State -> State) : Proc unit := SetState f (ret tt).
Definition effect (e : Effect) : Proc unit := Do e (ret tt).

(** [try { p } catch (e) { h e }]. *)
Fixpoint try_catch {A : Type} (p : Proc A) (h : Error -> Proc A) : Proc A :=
  match p with
  | Done (Throw e) => h e
  | Done c => Done c
  | SetState g k => SetState g (try_catch k h)
  | Do e k => Do e (try_catch k h)
  | Await c k => Await c (fun r => try_catch (k r) h)
  | Fork child k => Fork child (try_catch k h)
  end.

(** [try { p } finally { f }]: [f] runs however [p] completes; the
    completion is [p]'s unless [f] itself returns or throws. *)
Fixpoint try_finally {A : Type} (p : Proc A) (f : Proc unit) : Proc A :=
  match p with
  | Done c => bind f (fun _ => Done c)
  | SetState g k => SetState g (try_finally k f)
  | Do e k => Do e (try_finally k f)
  | Await c k => Await c (fun r => try_finally (k r) f)
  | Fork child k => Fork child (try_finally k f)
  end.

Definition try_catch_finally {A : Type}
    (p : Proc A) (h : Error -> Proc A) (f : Proc unit) : Proc A :=
  try_finally (try_catch p h) f.

(** The body of a function, seen from its caller: a [return] ends the
    function, not the caller. *)
Fixpoint body (p : Proc unit) : Proc unit :=
  match p with
  | Done Return => ret tt
  | Done c => Done c
  | SetState g k => SetState g (body k)
  | Do e k => Do e (body k)
  | Await c k => Await c (fun r => body (k r))
  | Fork child k => Fork child (body k)
  end.

(** [await h()] for an async function [h] of the component. *)
Definition call (h : Proc unit) : Proc unit := body h.

(** [h()] without [await]: [h] runs up to its first [await]; the caller
    goes on, and a rejection of [h]'s promise reaches nobody. *)
Definition spawn (h : Proc unit) : Proc unit := Fork (body h) (ret tt).

(** [await Promise.all(xs.map(async x => f x))].  No [f x] of the
    component rejects, and the results keep the order of [xs]. *)
Fixpoint promise_all_map {X A : Type}
    (f : X -> Proc A) (xs : list X) : Proc (list A) :=
  match xs with
  | [] => ret []
  | x :: rest =>
      bind (f x) (fun a =>
      bind (promise_all_map f rest) (fun others =>
      ret (a :: others)))
  end.

(** *** Running a process *)

Record World : Type := mkWorld {
  store : State;
  trace : Trace;
  pending : list (Proc unit)
}.

Definition update (f : State -> State) (w : World) : World :=
  mkWorld (f (store w)) (trace w) (pending w).

Definition record (e : Event) (w : World) : World :=
  mkWorld (store w) (trace w ++ [e]) (pending w).

Definition suspend (p : Proc unit) (w : World) : World :=
  mkWorld (store w) (trace w) (pending w ++ [p]).

(** A call that is not awaited: the synchronous prefix of the callee
    runs, and what is left from its first [await] on is kept pending. *)
Fixpoint start (p : Proc unit) (w : World) : World :=
  match p with
  | Done _ => w
  | SetState g k => start k (update g w)
  | Do e k => start k (record (Did e) w)
  | Await _ _ => suspend p w
  | Fork child k => start k (start child w)
  end.

Variable env : Env.

(** A process run to its end: each awaited call settles as [env] says,
    at the history reached when it is awaited. *)
Fixpoint run {A : Type} (p : Proc A) (w : World) : Completion A * World :=
  match p with
  | Done c => (c, w)
  | SetState g k => run k (update g w)
  | Do e k => run k (record (Did e) w)
  | Await c k =>
      let r := env _ c (trace w) in
      run (k r) (record (Called c r) w)
  | Fork child k => run k (start child w)
  end.

(** The world a process leaves. *)
Definition exec {A : Type} (p : Proc A) (w : World) : World :=
  snd (run p w).

(** The pending continuations resumed one after the other, oldest
    first; [fuel] bounds the number of resumptions. *)
Fixpoint settle (fuel : nat) (w : World) : World :=
  match fuel with
  | O => w
  | S n =>
      match pending w with
      | [] => w
      | p :: rest =>
          settle n (exec p (mkWorld (store w) (trace w) rest))
      end
  end.

End Runtime.

Arguments Done {State A} c.
Arguments SetState {State A} f k.
Arguments Do {State A} e k.
Arguments Await {State A R} c k.
Arguments Fork {State A} child k.
Arguments ret {State A} a.
Arguments return_ {State A}.
Arguments throw {State A} e.
Arguments bind {State A B} p f.
Arguments await {State R} c.
Arguments set {State} f.
Arguments effect {State} e.
Arguments try_catch {State A} p h.
Arguments try_finally {State A} p f.
Arguments try_catch_finally {State A} p h f.
Arguments body {State} p.
Arguments call {State} h.
Arguments spawn {State} h.
Arguments promise_all_map {State X A} f xs.
Arguments mkWorld {State} store trace pending.
Arguments store {State} w.
Arguments trace {State} w.
Arguments pending {State} w.
Arguments update {State} f w.
Arguments record {State} e w.
Arguments suspend {State} p w.
Arguments start {State} p w.
Arguments run {State} env {A} p w.
Arguments exec {State} env {A} p w.
Arguments settle {State} env fuel w.

Declare Scope proc_scope.
Delimit Scope proc_scope with proc.
Notation "x <- p ;; q" := (bind p (fun x => q))
  (at level 100, p at next level, right associativity) : proc_scope.
Notation "p ;; q" := (bind p (fun _ => q))
  (at level 100, right associativity) : proc_scope.

(** A synchronous library call that returns or throws. *)
Definition lift {State R : Type} (o : Outcome R) : Proc State R :=
  match o with
  | Fulfilled v => ret v
  | Rejected e => throw e
  end.

(** [xs.filter(t => t !== null)]. *)
Fixpoint filter_not_null {A : Type} (xs : list (option A)) : list A :=
  match xs with
  | [] => []
  | Some a :: rest => a :: filter_not_null rest
  | None :: rest => filter_not_null rest
  end.

Definition is_some {A : Type} (x : option A) : bool :=
  match x with Some _ => true | None => false end.

(** The object an async callback of [fetchTokens] returns for an account
    whose metadata was resolved (both versions of the component build the
    same one). *)
Definition token_of (tokenAccount : TokenAccount.t)
    (metadata : option TokenMetadata.t) : Token.t :=
  {| Token.name :=
       string_or (option_map TokenMetadata.name metadata) "Unknown Token";
     Token.symbol :=
       string_or (option_map TokenMetadata.symbol metadata) "UNK";
     Token.balance := AccountInfo.lamports (TokenAccount.account tokenAccount);
     Token.pubKey := TokenAccount.pubkey tokenAccount |}.

(** The async callback [fetchTokens] maps over the accounts (the same in
    both versions): the token of the account, or [null] when
    [getTokenMetadata] throws. *)
Definition token_promise {State : Type} (tokenAccount : TokenAccount.t)
    : Proc State (option Token.t) :=
  try_catch
    (bind (await (getTokenMetadata (TokenAccount.pubkey tokenAccount)))
       (fun metadata => ret (Some (token_of tokenAccount metadata))))
    (fun e => ret None).

(** The record [handleFetchHistory] maps a signature to (both versions). *)
Definition item_of (tx : ConfirmedSignatureInfo.t) : TransactionItem.t :=
  {| TransactionItem.signature := ConfirmedSignatureInfo.signature tx;
     TransactionItem.time :=
       newDate (number_or (ConfirmedSignatureInfo.blockTime tx) 0 * 1000)%float;
     TransactionItem.status :=
       non_null (ConfirmedSignatureInfo.confirmationStatus tx);
     TransactionItem.err := ConfirmedSignatureInfo.err tx |}.

(** ** The mounted component ([App], imported by [main.tsx]) *)

Module App.

Record State : Type := mkState {
  balance : number;
  airdropAmount : string;
  receiverAddress : string;
  lamportsToTransfer : string;
  userTokens : list Token.t;
  transactions : list TransactionItem.t;
  isLoadingBalance : bool;
  isAirdropping : bool;
  isSending : bool
}.

(** The arguments of the [useState] calls. *)
Definition initial : State :=
  mkState 0%float "" "" "" [] [] false false false.

Definition setBalance (v : number) : Proc State unit :=
  set (fun s => mkState v (airdropAmount s) (receiverAddress s)
    (lamportsToTransfer s) (userTokens s) (transactions s)
    (isLoadingBalance s) (isAirdropping s) (isSending s)).

Definition setAirdropAmount (v : string) : Proc State unit :=
  set (fun s => mkState (balance s) v (receiverAddress s)
    (lamportsToTransfer s) (userTokens s) (transactions s)
    (isLoadingBalance s) (isAirdropping s) (isSending s)).

Definition setReceiverAddress (v : string) : Proc State unit :=
  set (fun s => mkState (balance s) (airdropAmount s) v
    (lamportsToTransfer s) (userTokens s) (transactions s)
    (isLoadingBalance s) (isAirdropping s) (isSending s)).

Definition setLamportsToTransfer (v : string) : Proc State unit :=
  set (fun s => mkState (balance s) (airdropAmount s) (receiverAddress s)
    v (userTokens s) (transactions s)
    (isLoadingBalance s) (isAirdropping s) (isSending s)).

Definition setUserTokens (v : list Token.t) : Proc State unit :=
  set (fun s => mkState (balance s) (airdropAmount s) (receiverAddress s)
    (lamportsToTransfer s) v (transactions s)
    (isLoadingBalance s) (isAirdropping s) (isSending s)).

Definition setTransactions (v : list TransactionItem.t) : Proc State unit :=
  set (fun s => mkState (balance s) (airdropAmount s) (receiverAddress s)
    (lamportsToTransfer s) (userTokens s) v
    (isLoadingBalance s) (isAirdropping s) (isSending s)).

Definition setIsLoadingBalance (v : bool) : Proc State unit :=
  set (fun s => mkState (balance s) (airdropAmount s) (receiverAddress s)
    (lamportsToTransfer s) (userTokens s) (transactions s)
    v (isAirdropping s) (isSending s)).

Definition setIsAirdropping (v : bool) : Proc State unit :=
  set (fun s => mkState (balance s) (airdropAmount s) (receiverAddress s)
    (lamportsToTransfer s) (userTokens s) (transactions s)
    (isLoadingBalance s) v (isSending s)).

Definition setIsSending (v : bool) : Proc State unit :=
  set (fun s => mkState (balance s) (airdropAmount s) (receiverAddress s)
    (lamportsToTransfer s) (userTokens s) (transactions s)
    (isLoadingBalance s) (isAirdropping s) v).

Section Render.

Local Open Scope proc_scope.

(** What the closures of one render capture: the library, the value of
    [useWallet()], and the state values of that render. *)
Variable lib : Lib.t.
Variable wallet : Wallet.t.
Variable s : State.

Definition handleShowBalance : Proc State unit :=
  match Wallet.publicKey wallet with
  | None => return_
  | Some publicKey =>
      try_catch_finally
        (setIsLoadingBalance true ;;
         balance <- await (getBalance publicKey) ;;
         setBalance (balance / LAMPORTS_PER_SOL)%float)
        (fun error =>
           effect (console_error "Error fetching balance:" error))
        (setIsLoadingBalance false)
  end.

Definition handleAirdrop : Proc State unit :=
  match Wallet.publicKey wallet with
  | None => return_
  | Some publicKey =>
      if negb (truthy_string (airdropAmount s)) then return_ else
      try_catch_finally
        (setIsAirdropping true ;;
         signature <- await (requestAirdrop publicKey
           (Lib.Number lib (airdropAmount s) * LAMPORTS_PER_SOL)%float) ;;
         latestBlockHash <- await getLatestBlockhash ;;
         await (confirmTransaction
           {| Strategy.blockhash := Blockhash.blockhash latestBlockHash;
              Strategy.lastValidBlockHeight :=
                Blockhash.lastValidBlockHeight latestBlockHash;
              Strategy.signature := signature |}) ;;
         call handleShowBalance ;;
         effect (alert "Airdrop successful!"))
        (fun error =>
           effect (console_error "Airdrop failed:" error) ;;
           effect (alert "Airdrop failed"))
        (setIsAirdropping false ;;
         setAirdropAmount "")
  end.

Definition handleSignMessage : Proc State unit :=
  try_catch
    (match Wallet.publicKey wallet, Wallet.signMessage wallet with
     | Some publicKey, Some wallet_signMessage =>
         let message := "Verify your account by signing this message" in
         let encodedMessage := encode message in
         signature <- await (wallet_signMessage encodedMessage) ;;
         if negb (Lib.ed25519_verify lib signature encodedMessage
                    (Lib.toBytes lib publicKey))
         then throw (mkError "Invalid signature!")
         else effect (alert "Message signed and verified successfully!")
     | _, _ => throw (mkError "Wallet not connected or invalid")
     end)
    (fun error =>
       effect (console_error "Sign message failed:" error) ;;
       effect (alert "Sign message failed")).

Definition handleFetchHistory : Proc State unit :=
  match Wallet.connected wallet, Wallet.publicKey wallet with
  | true, Some publicKey =>
      try_catch
        (signatures <- await (getSignaturesForAddress publicKey 10) ;;
         let formatted := map item_of signatures in
         setTransactions formatted)
        (fun error =>
           effect (console_error "History fetch failed" error))
  | _, _ => return_
  end.

Definition handleSendTokens : Proc State unit :=
  try_catch_finally
    (match Wallet.connected wallet, Wallet.publicKey wallet with
     | true, Some publicKey =>
         setIsSending true ;;
         to <- lift (Lib.newPublicKey lib (receiverAddress s)) ;;
         let transaction :=
           add newTransaction
             {| Transfer.fromPubkey := publicKey;
                Transfer.lamports :=
                  (Lib.Number lib (lamportsToTransfer s)
                   * LAMPORTS_PER_SOL)%float;
                Transfer.toPubkey := to |} in
         sig <- await (sendTransaction transaction) ;;
         effect (console_log [LogString "Tx Signature:"; LogString sig]) ;;
         latestBlockHash <- await getLatestBlockhash ;;
         await (confirmTransaction
           {| Strategy.blockhash := Blockhash.blockhash latestBlockHash;
              Strategy.lastValidBlockHeight :=
                Blockhash.lastValidBlockHeight latestBlockHash;
              Strategy.signature := sig |}) ;;
         effect (alert "Transaction successful!") ;;
         spawn handleShowBalance ;;
         spawn handleFetchHistory
     | _, _ => throw (mkError "Wallet disconnected")
     end)
    (fun error =>
       effect (console_error "Send failed:" error) ;;
       effect (alert "Transaction failed"))
    (setIsSending false).

Definition fetchTokens : Proc State unit :=
  match Wallet.publicKey wallet with
  | None => return_
  | Some publicKey =>
      try_catch
        (accounts <- await (getParsedTokenAccountsByOwner publicKey
                              TOKEN_2022_PROGRAM_ID) ;;
         results <- promise_all_map token_promise accounts ;;
         setUserTokens (filter_not_null results))
        (fun error =>
           effect (console_error "Token fetch failed" error))
  end.

(** The callback of [useEffect(..., [wallet.connected, connection])]:
    it runs after the first render and after every render in which
    [wallet.connected] (or the connection) has changed. *)
Definition useEffect : Proc State unit :=
  if Wallet.connected wallet then
    spawn handleShowBalance ;;
    spawn fetchTokens ;;
    spawn handleFetchHistory
  else
    setBalance 0%float ;;
    setUserTokens [] ;;
    setTransactions [].

End Render.

End App.

(** ** The other version of the component ([src/newApp.tsx]) *)

Module NewApp.

Record State : Type := mkState {
  balance : number;
  airdropAmount : string;
  reciverAddress : string;
  lamportsToTransfer : string;
  userTokens : list Token.t;
  transactions : list TransactionItem.t;
  isBalanceGet : bool;
  isFeatchingBalance : bool;
  isAirdroping : bool
}.

Definition initial : State :=
  mkState 0%float "" "" "" [] [] false false false.

Definition setBalance (v : number) : Proc State unit :=
  set (fun s => mkState v (airdropAmount s) (reciverAddress s)
    (lamportsToTransfer s) (userTokens s) (transactions s)
    (isBalanceGet s) (isFeatchingBalance s) (isAirdroping s)).

Definition setAirdropAmount (v : string) : Proc State unit :=
  set (fun s => mkState (balance s) v (reciverAddress s)
    (lamportsToTransfer s) (userTokens s) (transactions s)
    (isBalanceGet s) (isFeatchingBalance s) (isAirdroping s)).

Definition setReciverAddress (v : string) : Proc State unit :=
  set (fun s => mkState (balance s) (airdropAmount s) v
    (lamportsToTransfer s) (userTokens s) (transactions s)
    (isBalanceGet s) (isFeatchingBalance s) (isAirdroping s)).

Definition setLamportsToTransfer (v : string) : Proc State unit :=
  set (fun s => mkState (balance s) (airdropAmount s) (reciverAddress s)
    v (userTokens s) (transactions s)
    (isBalanceGet s) (isFeatchingBalance s) (isAirdroping s)).

Definition setUserTokens (v : list Token.t) : Proc State unit :=
  set (fun s => mkState (balance s) (airdropAmount s) (reciverAddress s)
    (lamportsToTransfer s) v (transactions s)
    (isBalanceGet s) (isFeatchingBalance s) (isAirdroping s)).

Definition setTransactions (v : list TransactionItem.t) : Proc State unit :=
  set (fun s => mkState (balance s) (airdropAmount s) (reciverAddress s)
    (lamportsToTransfer s) (userTokens s) v
    (isBalanceGet s) (isFeatchingBalance s) (isAirdroping s)).

Definition setIsBalanceGet (v : bool) : Proc State unit :=
  set (fun s => mkState (balance s) (airdropAmount s) (reciverAddress s)
    (lamportsToTransfer s) (userTokens s) (transactions s)
    v (isFeatchingBalance s) (isAirdroping s)).

Definition setIsFeatchingBalance (v : bool) : Proc State unit :=
  set (fun s => mkState (balance s) (airdropAmount s) (reciverAddress s)
    (lamportsToTransfer s) (userTokens s) (transactions s)
    (isBalanceGet s) v (isAirdroping s)).

Definition setIsAirdroping (v : bool) : Proc State unit :=
  set (fun s => mkState (balance s) (airdropAmount s) (reciverAddress s)
    (lamportsToTransfer s) (userTokens s) (transactions s)
    (isBalanceGet s) (isFeatchingBalance s) v).

Section Render.

Local Open Scope proc_scope.

Variable lib : Lib.t.
Variable wallet : Wallet.t.
Variable s : State.

Definition handleShowBalance : Proc State unit :=
  try_catch_finally
    (setIsBalanceGet true ;;
     setIsFeatchingBalance true ;;
     match Wallet.publicKey wallet with
     | None => throw (mkError "Wallet not connected!")
     | Some publicKey =>
         balance <- await (getBalance publicKey) ;;
         setBalance balance
     end)
    (fun error =>
       effect (console_error "Error while featching balance: " error) ;;
       effect (alert "Error while featching balance") ;;
       return_)
    (setIsFeatchingBalance false) ;;
  effect (console_log [LogBool (isFeatchingBalance s)]).

Definition handleAirdrop : Proc State unit :=
  try_catch_finally
    (setIsAirdroping true ;;
     match Wallet.publicKey wallet with
     | None => throw (mkError "Wallet not connected!")
     | Some publicKey =>
         _ <- await (requestAirdrop publicKey
           (Lib.Number lib (airdropAmount s) * LAMPORTS_PER_SOL)%float) ;;
         ret tt
     end)
    (fun error =>
       effect (console_error "Error while airdroping: " error) ;;
       effect (alert "Error while airdroping") ;;
       return_)
    (setIsAirdroping false).

Definition handleSignMessage : Proc State unit :=
  try_catch
    (match Wallet.publicKey wallet with
     | None => throw (mkError "Wallet not connected!")
     | Some publicKey =>
         match Wallet.signMessage wallet with
         | None => throw (mkError "sign message not supported")
         | Some wallet_signMessage =>
             let message := "Verify your account by sigining message" in
             let EncodedMessge := encode message in
             signature <- await (wallet_signMessage EncodedMessge) ;;
             if negb (Lib.ed25519_verify lib signature EncodedMessge
                        (Lib.toBytes lib publicKey))
             then throw (mkError "Message signature invalid!")
             else effect (alert "Sign Message successfuly")
         end
     end)
    (fun error =>
       effect (console_error "Error while signing message: " error) ;;
       effect (alert "Error while signing message") ;;
       return_).

Definition handleSendTokens : Proc State unit :=
  try_catch
    (match Wallet.connected wallet, Wallet.publicKey wallet with
     | true, Some publicKey =>
         (* [Number(balance)] of a number is that number. *)
         if ge (Lib.Number lib (lamportsToTransfer s)) (balance s)
         then throw (mkError "Insifficent balance to transfer")
         else
           to <- lift (Lib.newPublicKey lib (reciverAddress s)) ;;
           let transation := newTransaction in
           effect (console_log
             [LogNumber (Lib.Number lib (lamportsToTransfer s)
                         * LAMPORTS_PER_SOL)%float]) ;;
           let transation :=
             add transation
               {| Transfer.fromPubkey := publicKey;
                  Transfer.lamports :=
                    (Lib.Number lib (lamportsToTransfer s)
                     * LAMPORTS_PER_SOL)%float;
                  Transfer.toPubkey := to |} in
           effect (console_log [LogString "before send transaction"]) ;;
           sig <- await (sendTransaction transation) ;;
           effect (console_log [LogString "signature: "; LogString sig]) ;;
           effect (alert "Transation sended!!")
     | _, _ => throw (mkError "Wallet not connected!")
     end)
    (fun error =>
       effect (console_error "Error while sending transation: " error)).

Definition fetchTokens : Proc State unit :=
  match Wallet.publicKey wallet with
  | None => return_
  | Some publicKey =>
      try_catch
        (accounts <- await (getParsedTokenAccountsByOwner publicKey
                              TOKEN_2022_PROGRAM_ID) ;;
         results <- promise_all_map token_promise accounts ;;
         setUserTokens (filter_not_null results))
        (fun error =>
           effect (console_error "Token fetch failed" error))
  end.

Definition handleFetchHistory : Proc State unit :=
  match Wallet.connected wallet, Wallet.publicKey wallet with
  | true, Some publicKey =>
      try_catch
        (signatures <- await (getSignaturesForAddress publicKey 20) ;;
         let formatted := map item_of signatures in
         setTransactions formatted)
        (fun error =>
           effect (console_error "History fetch failed" error))
  | _, _ => return_
  end.

(** The callback of [useEffect(..., [])]: it runs once, after the
    first render. *)
Definition useEffect : Proc State unit :=
  if negb (isBalanceGet s) then spawn handleShowBalance else ret tt.

End Render.

End NewApp.

(** ** Environments and inputs used in the examples *)

Module Example.

Definition alice : PublicKey :=
  PublicKeyOf "4Nd1mYQzvgV8Vr3Z3nYb7pD6T8K1w5sLk2cHqXvB9xQe".
Definition bob : PublicKey :=
  PublicKeyOf "7dHbWXmci3dT8UFYWYZweBLXgycu7Y3iL6trKn1Y7ARj".

(** [Number] on the strings the examples enter. *)
Definition Number (s : string) : number :=
  if String.eqb s "" then 0%float
  else if String.eqb s "1" then 1%float
  else if String.eqb s "5" then 5%float
  else nan.

(** [new PublicKey]: only [bob]'s address is entered in the examples. *)
Definition newPublicKey (s : string) : Outcome PublicKey :=
  if String.eqb s "7dHbWXmci3dT8UFYWYZweBLXgycu7Y3iL6trKn1Y7ARj"
  then Fulfilled bob
  else Rejected (mkError "Invalid public key input").

Definition toBytes (k : PublicKey) : list byte :=
  match k with PublicKeyOf t => list_byte_of_string t end.

(** A stand-in for [ed25519.verify]: the wallet of the examples signs a
    message by reversing it. *)
Definition verify (signature message key : list byte) : bool :=
  if list_eq_dec Byte.byte_eq_dec signature (rev message)
  then true else false.

Definition lib : Lib.t := Lib.make Number newPublicKey toBytes verify.

(** A connected wallet that can sign messages. *)
Definition wallet : Wallet.t :=
  Wallet.make true (Some alice) (Some signMessage).

(** A connected wallet without [signMessage]. *)
Definition wallet_no_sign : Wallet.t :=
  Wallet.make true (Some alice) None.

(** The wallet before it is connected. *)
Definition disconnected : Wallet.t :=
  Wallet.make false None (Some signMessage).

Definition acct1 : TokenAccount.t :=
  TokenAccount.make (PublicKeyOf "Acct1") (AccountInfo.make 2039280 500)%float.
Definition acct2 : TokenAccount.t :=
  TokenAccount.make (PublicKeyOf "Acct2") (AccountInfo.make 2039280 7)%float.
Definition acct3 : TokenAccount.t :=
  TokenAccount.make (PublicKeyOf "Acct3") (AccountInfo.make 2074080 1)%float.

Definition sig1 : ConfirmedSignatureInfo.t :=
  ConfirmedSignatureInfo.make "sig1" (Some 1700000000%float)
    (Some finalized) None.
(** A signature the node reports without block time and without
    confirmation status. *)
Definition sig2 : ConfirmedSignatureInfo.t :=
  ConfirmedSignatureInfo.make "sig2" None None None.

(** A node holding 3.5 SOL for the wallet; every request succeeds, except
    that the metadata of [acct2] cannot be resolved. *)
Definition env : Env :=
  fun R (c : Call R) (_ : Trace) =>
    match c in Call R return Outcome R with
    | getBalance _ => Fulfilled 3500000000%float
    | requestAirdrop _ _ => Fulfilled "airdrop-signature"
    | getLatestBlockhash =>
        Fulfilled (Blockhash.make "blockhash" 1000%float)
    | confirmTransaction _ => Fulfilled tt
    | getParsedTokenAccountsByOwner _ _ => Fulfilled [acct1; acct2; acct3]
    | getTokenMetadata a =>
        match a with
        | PublicKeyOf t =>
            if String.eqb t "Acct2"
            then Rejected (mkError "TokenAccountNotFoundError")
            else if String.eqb t "Acct1"
            then Fulfilled (Some (TokenMetadata.make "Gold" "GLD"))
            else Fulfilled None
        end
    | getSignaturesForAddress _ _ => Fulfilled [sig1; sig2]
    | signMessage m => Fulfilled (rev m)
    | sendTransaction _ => Fulfilled "transfer-signature"
    end.

(** A node and a wallet that reject every request. *)
Definition failing : Env :=
  fun R (c : Call R) (_ : Trace) => Rejected (mkError "failed").

(** A wallet whose owner declines to sign; the node is that of [env]. *)
Definition declining : Env :=
  fun R (c : Call R) (t : Trace) =>
    match c in Call R return Outcome R with
    | signMessage _ => Rejected (mkError "User rejected the request.")
    | c' => env _ c' t
    end.

Definition world {State : Type} (s : State) : World State :=
  mkWorld s [] [].

(** A confirmation that succeeded. *)
Definition confirmation (e : Event) : bool :=
  match e with
  | Called c r =>
      match c with
      | confirmTransaction _ => negb (rejected r)
      | _ => false
      end
  | Did _ => false
  end.

(** A node whose answers depend on what happened before: the wallet holds
    2.5 SOL until a transaction has been confirmed, and 3.5 SOL after. *)
Definition faucet : Env :=
  fun R (c : Call R) (t : Trace) =>
    match c in Call R return Outcome R with
    | getBalance _ =>
        if existsb confirmation t
        then Fulfilled 3500000000%float
        else Fulfilled 2500000000%float
    | c' => env _ c' t
    end.


(** A state with a balance of 3.5, a token and a transaction, and with
    amounts entered in the two forms. *)
Definition stale : App.State :=
  App.mkState 3.5%float "1" "7dHbWXmci3dT8UFYWYZweBLXgycu7Y3iL6trKn1Y7ARj" "5"
    [token_of acct1 None] [item_of sig1] true false false.

(** The same for the other version, where the balance is the one its own
    refresh stores. *)
Definition stale_new : NewApp.State :=
  NewApp.mkState 3500000000%float "1"
    "7dHbWXmci3dT8UFYWYZweBLXgycu7Y3iL6trKn1Y7ARj" "5"
    [token_of acct1 None] [item_of sig1] false false false.

End Example.

(** ** Observations on histories *)

(** The events of the run that led from [w] to [w']. *)
Definition since {State : Type} (w w' : World State) : Trace :=
  skipn (length (trace w)) (trace w').

Definition is_getTokenMetadata {R : Type} (c : Call R) : bool :=
  match c with
  | getTokenMetadata _ => true
  | _ => false
  end.

(** A metadata resolution that failed. *)
Definition failed_resolution (e : Event) : bool :=
  match e with
  | Called c r => is_getTokenMetadata c && rejected r
  | Did _ => false
  end.

(** The number of metadata resolutions that failed in a history. *)
Definition failed_resolutions (t : Trace) : nat :=
  length (filter failed_resolution t).

(** A request to the node or to the wallet: everything but the console
    and [alert]. *)
Definition is_request (e : Event) : bool :=
  match e with
  | Called _ _ => true
  | Did _ => false
  end.

(** What the callbacks of [fetchTokens] do to a history [t], account after
    account: the results, and the events added. *)
Fixpoint resolutions (env : Env) (t : Trace) (accounts : list TokenAccount.t)
    : list (option Token.t) * Trace :=
  match accounts with
  | [] => ([], [])
  | a :: rest =>
      let r := env _ (getTokenMetadata (TokenAccount.pubkey a)) t in
      let e := Called (getTokenMetadata (TokenAccount.pubkey a)) r in
      let (tokens, events) := resolutions env (t ++ [e]) rest in
      (match r with
       | Fulfilled metadata => Some (token_of a metadata)
       | Rejected _ => None
       end :: tokens, e :: events)
  end.

(** The wallet has a public key and can sign, its answer to the request
    to sign [text] at the history [t] is a signature, and [ed25519.verify]
    accepts that signature for the encoded text and the key's bytes. *)
Definition signature_verified (env : Env) (lib : Lib.t) (wallet : Wallet.t)
    (t : Trace) (text : string) : Prop :=
  exists pk sign signature,
    Wallet.publicKey wallet = Some pk /\
    Wallet.signMessage wallet = Some sign /\
    env _ (sign (encode text)) t = Fulfilled signature /\
    Lib.ed25519_verify lib signature (encode text) (Lib.toBytes lib pk) = true.

(** What [handleSignMessage] leaves in the history after a failure. *)
Definition sign_failure (label text : string) (e : Error) : Trace :=
  [Did (console_error label e); Did (alert text)].

(** The events of one run of [handleSignMessage], in terms of the texts
    the version uses: the text signed, the success alert, the label logged
    and the alert shown on failure, and the errors it throws itself. *)
Definition sign_events (env : Env) (lib : Lib.t) (wallet : Wallet.t)
    (t : Trace) (text ok label fail : string)
    (invalid no_method no_key : Error) : Trace :=
  match Wallet.publicKey wallet, Wallet.signMessage wallet with
  | Some pk, Some sign =>
      Called (sign (encode text)) (env _ (sign (encode text)) t) ::
      match env _ (sign (encode text)) t with
      | Fulfilled signature =>
          if Lib.ed25519_verify lib signature (encode text) (Lib.toBytes lib pk)
          then [Did (alert ok)]
          else sign_failure label fail invalid
      | Rejected e => sign_failure label fail e
      end
  | Some pk, None => sign_failure label fail no_method
  | None, _ => sign_failure label fail no_key
  end.

(** ** What the page shows *)

(** [s.slice(0, n)] and [s.slice(-n)] on the base-58 text of a signature
    or of an address, where a character is one byte. *)
Definition slice_first (n : nat) (s : string) : string :=
  substring 0 n s.

Definition slice_last (n : nat) (s : string) : string :=
  substring (String.length s - n) n s.

(** [{s.slice(0, n)}...{s.slice(-n)}]: the history table shortens a
    signature with n = 8, the token list an address with n = 4. *)
Definition shorten (n : nat) (s : string) : string :=
  (slice_first n s ++ "..." ++ slice_last n s)%string.

(** [publicKey.toString()]. *)
Definition toString (k : PublicKey) : string :=
  match k with PublicKeyOf base58 => base58 end.

(** The component [StatusBadge], given the values the history table
    passes to it. *)
Module StatusBadge.

(** The object [colors], its properties in the order written. *)
Definition colors : list (string * string) :=
  [("finalized", "bg-emerald-500/20 text-emerald-400 border-emerald-500/50");
   ("confirmed", "bg-blue-500/20 text-blue-400 border-blue-500/50");
   ("processed", "bg-yellow-500/20 text-yellow-400 border-yellow-500/50");
   ("unknown", "bg-slate-500/20 text-slate-400 border-slate-500/50")].

(** [o[key]]: the value of the property, or [undefined]. *)
Fixpoint get (o : list (string * string)) (key : string) : option string :=
  match o with
  | [] => None
  | (k, v) :: rest => if String.eqb k key then Some v else get rest key
  end.

(** The property key a status is read with: the string itself, and
    ["undefined"] for [undefined]. *)
Definition key (status : Status) : string :=
  match status with
  | status_of processed => "processed"
  | status_of confirmed => "confirmed"
  | status_of finalized => "finalized"
  | unknown => "unknown"
  | undefined => "undefined"
  end.

(** [a || b] on two looked-up values. *)
Definition or (a b : option string) : option string :=
  match a with
  | Some v => if truthy_string v then a else b
  | None => b
  end.

(** A value inside a template literal. *)
Definition interpolate (x : option string) : string :=
  match x with
  | Some v => v
  | None => "undefined"
  end.

(** The [span] returned: its class and its text ([undefined] renders as
    no text). *)
Record t : Type := make {
  className : string;
  children : option string
}.

Definition render (status : Status) : t :=
  {| className :=
       ("px-2 py-1 rounded-full text-xs font-medium border "
        ++ interpolate (or (get colors (key status)) (get colors "unknown")))%string;
     children :=
       match status with
       | undefined => None
       | _ => Some (key status)
       end |}.

End StatusBadge.

(** The expressions of the JSX of the mounted component that depend on
    the state. *)
Module Page.

(** [disabled={isSending || !wallet.connected}] of the send button. *)
Definition send_disabled (wallet : Wallet.t) (s : App.State) : bool :=
  App.isSending s || negb (Wallet.connected wallet).

(** [disabled={isAirdropping}] of the airdrop button. *)
Definition airdrop_disabled (s : App.State) : bool :=
  App.isAirdropping s.

(** [isLoadingBalance ? <placeholder> : <the balance>]. *)
Definition balance_shown (s : App.State) : bool :=
  negb (App.isLoadingBalance s).

(** [userTokens.length > 0 ? <rows> : <"No Token-2022 assets found">]. *)
Definition no_tokens_notice (s : App.State) : bool :=
  negb (Nat.ltb 0 (length (App.userTokens s))).

(** [transactions.length === 0 && <"No recent transactions found">]. *)
Definition no_transactions_notice (s : App.State) : bool :=
  Nat.eqb (length (App.transactions s)) 0.

(** A row of the token list: name, shortened address, symbol. *)
Definition token_rows (s : App.State) : list (string * string * string) :=
  map (fun token =>
         (Token.name token,
          shorten 4 (toString (Token.pubKey token)),
          Token.symbol token))
      (App.userTokens s).

(** A row of the history table: shortened signature and badge. *)
Definition history_rows (s : App.State) : list (string * StatusBadge.t) :=
  map (fun tx =>
         (shorten 8 (TransactionItem.signature tx),
          StatusBadge.render (TransactionItem.status tx)))
      (App.transactions s).

End Page.

(** ** More observations *)

(** The texts shown with [alert], in order. *)
Fixpoint alerts (t : Trace) : list string :=
  match t with
  | [] => []
  | Did (alert text) :: rest => text :: alerts rest
  | _ :: rest => alerts rest
  end.

(** The number of requests made to the node or the wallet. *)
Definition requests (t : Trace) : nat := length (filter is_request t).


(** The cells of the mounted component that belong to its forms: the
    three inputs, and the busy flags of the airdrop and of the transfer. *)
Definition forms_untouched (s s' : App.State) : Prop :=
  App.airdropAmount s' = App.airdropAmount s /\
  App.receiverAddress s' = App.receiverAddress s /\
  App.lamportsToTransfer s' = App.lamportsToTransfer s /\
  App.isAirdropping s' = App.isAirdropping s /\
  App.isSending s' = App.isSending s.



(** * Properties *)

(** ** How [run] goes through the combinators *)

Section RunEquations.

Context {State : Type} (env : Env).

Lemma run_bind {A B : Type} (p : Proc State A) (f : A -> Proc State B) w :
  run env (bind p f) w =
  match run env p w with
  | (Normal a, w') => run env (f a) w'
  | (Return, w') => (Return, w')
  | (Throw e, w') => (Throw e, w')
  end.
Proof.
  revert B f w.
  induction p as [A c | A g k IHk | A e k IHk | A R c k IHk | A child _ k IHk];
    intros B f w; simpl.
  - destruct c; reflexivity.
  - apply IHk.
  - apply IHk.
  - apply IHk.
  - apply IHk.
Qed.

Lemma run_try_catch {A : Type} (p : Proc State A) (h : Error -> Proc State A) w :
  run env (try_catch p h) w =
  match run env p w with
  | (Throw e, w') => run env (h e) w'
  | other => other
  end.
Proof.
  revert h w.
  induction p as [A c | A g k IHk | A e k IHk | A R c k IHk | A child _ k IHk];
    intros h w; simpl; auto.
  destruct c; reflexivity.
Qed.

Lemma run_try_finally {A : Type} (p : Proc State A) (f : Proc State unit) w :
  run env (try_finally p f) w =
  match run env p w with
  | (c, w') =>
      match run env f w' with
      | (Normal _, w'') => (c, w'')
      | (Return, w'') => (Return, w'')
      | (Throw e, w'') => (Throw e, w'')
      end
  end.
Proof.
  revert f w.
  induction p as [A c | A g k IHk | A e k IHk | A R c k IHk | A child _ k IHk];
    intros f w; simpl; auto.
  rewrite run_bind. destruct (run env f w) as [[u | | e] w']; reflexivity.
Qed.

Lemma run_body (p : Proc State unit) w :
  run env (body p) w =
  match run env p w with
  | (Return, w') => (Normal tt, w')
  | other => other
  end.
Proof.
  revert p w. fix IH 1. intros p w.
  destruct p as [c | g k | e k | R c k | child k]; simpl.
  - destruct c; reflexivity.
  - apply IH.
  - apply IH.
  - apply IH.
  - apply IH.
Qed.

Lemma run_ret {A : Type} (a : A) (w : World State) :
  run env (ret a) w = (Normal a, w).
Proof. reflexivity. Qed.

Lemma run_await {R : Type} (c : Call R) (w : World State) :
  run env (await c) w =
  (match env R c (trace w) with
   | Fulfilled v => Normal v
   | Rejected e => Throw e
   end,
   record (Called c (env R c (trace w))) w).
Proof.
  unfold await; simpl. destruct (env R c (trace w)); reflexivity.
Qed.

End RunEquations.

(** ** Histories *)

Lemma since_app {State : Type} (w w' : World State) (events : Trace) :
  trace w' = trace w ++ events -> since w w' = events.
Proof.
  unfold since. intros ->.
  rewrite skipn_app, skipn_all, Nat.sub_diag. reflexivity.
Qed.

Lemma since_head {State : Type} (w w' : World State) (e : Event) (rest : Trace) :
  trace w' = trace w ++ e :: rest -> hd_error (since w w') = Some e.
Proof. intros H. rewrite (since_app w w' (e :: rest) H). reflexivity. Qed.

Lemma since_record {State : Type} (w : World State) (e : Event) :
  since w (record e w) = [e].
Proof. apply since_app. reflexivity. Qed.

(** ** The callbacks of [fetchTokens] *)

Section Resolutions.

Context {State : Type} (env : Env).

(** Mapping the callback over the accounts never throws; it leaves the
    state alone and adds the events of [resolutions]. *)
Lemma run_token_promises (accounts : list TokenAccount.t) (w : World State) :
  run env (promise_all_map token_promise accounts) w =
  (Normal (fst (resolutions env (trace w) accounts)),
   mkWorld (store w)
           (trace w ++ snd (resolutions env (trace w) accounts))
           (pending w)).
Proof.
  revert w.
  induction accounts as [| a rest IH]; intros w.
  - simpl. rewrite app_nil_r. destruct w; reflexivity.
  - cbn [promise_all_map resolutions].
    rewrite run_bind.
    unfold token_promise at 1.
    rewrite run_try_catch, run_bind, run_await.
    set (r := env _ (getTokenMetadata (TokenAccount.pubkey a)) (trace w)).
    destruct r as [metadata | err] eqn:Hr; cbn [run ret];
      rewrite run_bind, IH; cbn [record trace store pending];
      destruct (resolutions env _ rest) as [tokens events];
      cbn [fst snd run ret]; rewrite <- app_assoc; reflexivity.
Qed.

(** One event per account. *)
Lemma resolutions_length (accounts : list TokenAccount.t) (t : Trace) :
  length (fst (resolutions env t accounts)) = length accounts /\
  length (snd (resolutions env t accounts)) = length accounts.
Proof.
  revert t. induction accounts as [| a rest IH]; intros t; simpl.
  - split; reflexivity.
  - destruct (resolutions env _ rest) as [tokens events] eqn:E.
    specialize (IH (t ++ [Called (getTokenMetadata (TokenAccount.pubkey a))
      (env _ (getTokenMetadata (TokenAccount.pubkey a)) t)])).
    rewrite E in IH. simpl in *. destruct IH as [-> ->]. split; reflexivity.
Qed.

(** The tokens kept and the resolutions that failed add up to the
    accounts. *)
Lemma resolutions_count (accounts : list TokenAccount.t) (t : Trace) :
  length (filter_not_null (fst (resolutions env t accounts)))
  + failed_resolutions (snd (resolutions env t accounts))
  = length accounts.
Proof.
  revert t. induction accounts as [| a rest IH]; intros t; simpl.
  - reflexivity.
  - specialize (IH (t ++ [Called (getTokenMetadata (TokenAccount.pubkey a))
      (env _ (getTokenMetadata (TokenAccount.pubkey a)) t)])).
    destruct (resolutions env _ rest) as [tokens events].
    unfold failed_resolutions in *. simpl in *.
    destruct (env _ (getTokenMetadata (TokenAccount.pubkey a)) t);
      simpl; lia.
Qed.

(** Every token kept is the token of an account whose metadata was
    resolved. *)
Lemma resolutions_sound (accounts : list TokenAccount.t) (t : Trace) (token : Token.t) :
  In token (filter_not_null (fst (resolutions env t accounts))) ->
  exists a metadata,
    In a accounts /\
    In (Called (getTokenMetadata (TokenAccount.pubkey a)) (Fulfilled metadata))
       (snd (resolutions env t accounts)) /\
    token = token_of a metadata.
Proof.
  revert t. induction accounts as [| a rest IH]; intros t; simpl.
  - intros [].
  - specialize (IH (t ++ [Called (getTokenMetadata (TokenAccount.pubkey a))
      (env _ (getTokenMetadata (TokenAccount.pubkey a)) t)])).
    destruct (resolutions env _ rest) as [tokens events].
    destruct (env _ (getTokenMetadata (TokenAccount.pubkey a)) t)
      as [metadata | err]; simpl in *.
    + intros [<- | Hin].
      * exists a, metadata. auto.
      * destruct (IH Hin) as (a' & m' & Ha & He & Ht).
        exists a', m'. auto.
    + intros Hin.
      destruct (IH Hin) as (a' & m' & Ha & He & Ht).
      exists a', m'. auto.
Qed.

End Resolutions.

(** ** Token enumeration ([fetchTokens]) *)

Lemma App_fetchTokens_run (env : Env) wallet (w : World App.State) pk accounts :
  Wallet.publicKey wallet = Some pk ->
  env _ (getParsedTokenAccountsByOwner pk TOKEN_2022_PROGRAM_ID) (trace w)
    = Fulfilled accounts ->
  let e := Called (getParsedTokenAccountsByOwner pk TOKEN_2022_PROGRAM_ID)
                  (Fulfilled accounts) in
  let w' := exec env (call (App.fetchTokens wallet)) w in
  App.userTokens (store w')
    = filter_not_null (fst (resolutions env (trace w ++ [e]) accounts)) /\
  since w w' = e :: snd (resolutions env (trace w ++ [e]) accounts).
Proof.
  intros Hpk Henv e w'. subst w'.
  unfold exec, call, App.fetchTokens. rewrite Hpk.
  rewrite run_body, run_try_catch, run_bind, run_await, Henv.
  rewrite run_bind, run_token_promises.
  cbn. split; [reflexivity |].
  apply since_app. cbn. rewrite <- app_assoc. reflexivity.
Qed.

Lemma NewApp_fetchTokens_run (env : Env) wallet (w : World NewApp.State) pk accounts :
  Wallet.publicKey wallet = Some pk ->
  env _ (getParsedTokenAccountsByOwner pk TOKEN_2022_PROGRAM_ID) (trace w)
    = Fulfilled accounts ->
  let e := Called (getParsedTokenAccountsByOwner pk TOKEN_2022_PROGRAM_ID)
                  (Fulfilled accounts) in
  let w' := exec env (call (NewApp.fetchTokens wallet)) w in
  NewApp.userTokens (store w')
    = filter_not_null (fst (resolutions env (trace w ++ [e]) accounts)) /\
  since w w' = e :: snd (resolutions env (trace w ++ [e]) accounts).
Proof.
  intros Hpk Henv e w'. subst w'.
  unfold exec, call, NewApp.fetchTokens. rewrite Hpk.
  rewrite run_body, run_try_catch, run_bind, run_await, Henv.
  rewrite run_bind, run_token_promises.
  cbn. split; [reflexivity |].
  apply since_app. cbn. rewrite <- app_assoc. reflexivity.
Qed.

(** What both versions of [fetchTokens] establish, from the two facts the
    lemmas above give. *)
Lemma token_list_facts (env : Env) (t : Trace) (accounts : list TokenAccount.t)
    (e : Event) (tokens : list Token.t) (events : Trace) :
  failed_resolution e = false ->
  tokens = filter_not_null (fst (resolutions env t accounts)) ->
  events = e :: snd (resolutions env t accounts) ->
  length tokens = length accounts - failed_resolutions events /\
  failed_resolutions events <= length accounts /\
  forall token, In token tokens ->
    exists a metadata,
      In a accounts /\
      In (Called (getTokenMetadata (TokenAccount.pubkey a)) (Fulfilled metadata))
         events /\
      token = token_of a metadata.
Proof.
  intros He -> ->.
  pose proof (resolutions_count env accounts t) as Hcount.
  unfold failed_resolutions in *. cbn [filter]. rewrite He.
  split; [lia | split; [lia |]].
  intros token Hin.
  destruct (resolutions_sound env accounts t token Hin) as (a & m & Ha & Hev & Ht).
  exists a, m. split; [assumption | split; [right; assumption | assumption]].
Qed.

(** C4. When the account enumeration returns [accounts] (N of them) and K
    of the metadata resolutions of the run fail, the token list stored has
    exactly N - K entries, and each entry is the token of an account whose
    metadata resolution succeeded.  Both versions of the component. *)
Theorem fetchTokens_drops_failed_resolutions
    (env : Env) (wallet : Wallet.t) (pk : PublicKey)
    (accounts : list TokenAccount.t) :
  Wallet.publicKey wallet = Some pk ->
  (forall w : World App.State,
     env _ (getParsedTokenAccountsByOwner pk TOKEN_2022_PROGRAM_ID) (trace w)
       = Fulfilled accounts ->
     let w' := exec env (call (App.fetchTokens wallet)) w in
     length (App.userTokens (store w'))
       = length accounts - failed_resolutions (since w w') /\
     failed_resolutions (since w w') <= length accounts /\
     forall token, In token (App.userTokens (store w')) ->
       exists a metadata,
         In a accounts /\
         In (Called (getTokenMetadata (TokenAccount.pubkey a))
                    (Fulfilled metadata)) (since w w') /\
         token = token_of a metadata)
  /\
  (forall w : World NewApp.State,
     env _ (getParsedTokenAccountsByOwner pk TOKEN_2022_PROGRAM_ID) (trace w)
       = Fulfilled accounts ->
     let w' := exec env (call (NewApp.fetchTokens wallet)) w in
     length (NewApp.userTokens (store w'))
       = length accounts - failed_resolutions (since w w') /\
     failed_resolutions (since w w') <= length accounts /\
     forall token, In token (NewApp.userTokens (store w')) ->
       exists a metadata,
         In a accounts /\
         In (Called (getTokenMetadata (TokenAccount.pubkey a))
                    (Fulfilled metadata)) (since w w') /\
         token = token_of a metadata).
Proof.
  intros Hpk. split; intros w Henv w'.
  - destruct (App_fetchTokens_run env wallet w pk accounts Hpk Henv) as [Htok Hev].
    eapply token_list_facts; [| exact Htok | exact Hev]. reflexivity.
  - destruct (NewApp_fetchTokens_run env wallet w pk accounts Hpk Henv) as [Htok Hev].
    eapply token_list_facts; [| exact Htok | exact Hev]. reflexivity.
Qed.

(** Three accounts, one failed resolution: two tokens. *)
Lemma fetchTokens_drops_failed_resolutions_witness :
  Wallet.publicKey Example.wallet = Some Example.alice /\
  failed_resolutions
    (since (Example.world App.initial)
       (exec Example.env (call (App.fetchTokens Example.wallet))
          (Example.world App.initial))) = 1 /\
  length (App.userTokens (store
    (exec Example.env (call (App.fetchTokens Example.wallet))
       (Example.world App.initial)))) = 3 - 1.
Proof.
  split; [reflexivity | split; [reflexivity |]].
  destruct (fetchTokens_drops_failed_resolutions Example.env Example.wallet
              Example.alice [Example.acct1; Example.acct2; Example.acct3]
              eq_refl) as [HApp _].
  destruct (HApp (Example.world App.initial) eq_refl) as [Hlen _].
  exact Hlen.
Defined.

(** C10. The [balance] of every token of the list is the [lamports] of
    the token account it was built from (the SOL the account holds), not
    the account's parsed token amount.  Both versions of the component. *)
Theorem token_balance_is_lamports
    (env : Env) (wallet : Wallet.t) (pk : PublicKey)
    (accounts : list TokenAccount.t) :
  Wallet.publicKey wallet = Some pk ->
  (forall (w : World App.State) token,
     env _ (getParsedTokenAccountsByOwner pk TOKEN_2022_PROGRAM_ID) (trace w)
       = Fulfilled accounts ->
     In token (App.userTokens
                 (store (exec env (call (App.fetchTokens wallet)) w))) ->
     exists a,
       In a accounts /\
       Token.pubKey token = TokenAccount.pubkey a /\
       Token.balance token = AccountInfo.lamports (TokenAccount.account a) /\
       (AccountInfo.tokenAmount (TokenAccount.account a)
          <> AccountInfo.lamports (TokenAccount.account a) ->
        Token.balance token
          <> AccountInfo.tokenAmount (TokenAccount.account a)))
  /\
  (forall (w : World NewApp.State) token,
     env _ (getParsedTokenAccountsByOwner pk TOKEN_2022_PROGRAM_ID) (trace w)
       = Fulfilled accounts ->
     In token (NewApp.userTokens
                 (store (exec env (call (NewApp.fetchTokens wallet)) w))) ->
     exists a,
       In a accounts /\
       Token.pubKey token = TokenAccount.pubkey a /\
       Token.balance token = AccountInfo.lamports (TokenAccount.account a) /\
       (AccountInfo.tokenAmount (TokenAccount.account a)
          <> AccountInfo.lamports (TokenAccount.account a) ->
        Token.balance token
          <> AccountInfo.tokenAmount (TokenAccount.account a))).
Proof.
  intros Hpk. split; intros w token Henv Hin.
  - destruct (App_fetchTokens_run env wallet w pk accounts Hpk Henv) as [Htok _].
    cbv zeta in Htok. rewrite Htok in Hin.
    destruct (resolutions_sound env accounts _ token Hin) as (a & m & Ha & _ & ->).
    exists a. cbn. repeat split; auto.
  - destruct (NewApp_fetchTokens_run env wallet w pk accounts Hpk Henv) as [Htok _].
    cbv zeta in Htok. rewrite Htok in Hin.
    destruct (resolutions_sound env accounts _ token Hin) as (a & m & Ha & _ & ->).
    exists a. cbn. repeat split; auto.
Qed.

(** The first example account holds 2039280 lamports and 500 tokens; its
    entry shows 2039280. *)
Lemma token_balance_is_lamports_witness :
  Wallet.publicKey Example.wallet = Some Example.alice /\
  exists a,
    In a [Example.acct1; Example.acct2; Example.acct3] /\
    Token.pubKey (token_of Example.acct1 (Some (TokenMetadata.make "Gold" "GLD")))
      = TokenAccount.pubkey a /\
    Token.balance (token_of Example.acct1 (Some (TokenMetadata.make "Gold" "GLD")))
      = AccountInfo.lamports (TokenAccount.account a) /\
    (AccountInfo.tokenAmount (TokenAccount.account a)
       <> AccountInfo.lamports (TokenAccount.account a) ->
     Token.balance (token_of Example.acct1 (Some (TokenMetadata.make "Gold" "GLD")))
       <> AccountInfo.tokenAmount (TokenAccount.account a)).
Proof.
  split; [reflexivity |].
  destruct (token_balance_is_lamports Example.env Example.wallet Example.alice
              [Example.acct1; Example.acct2; Example.acct3] eq_refl)
    as [HApp _].
  apply (HApp (Example.world App.initial)
              (token_of Example.acct1 (Some (TokenMetadata.make "Gold" "GLD")))
              eq_refl).
  left. reflexivity.
Defined.

(** ** The connection effect *)

(** C5. When the effect runs with the wallet disconnected, it sets the
    balance to 0 and the token and transaction lists to the empty list,
    whatever they held; it asks nothing of the node or the wallet and
    touches no other state. *)
Theorem disconnect_resets_caches
    (env : Env) (wallet : Wallet.t) (w : World App.State) :
  Wallet.connected wallet = false ->
  let w' := exec env (call (App.useEffect wallet)) w in
  App.balance (store w') = 0%float /\
  App.userTokens (store w') = [] /\
  App.transactions (store w') = [] /\
  trace w' = trace w /\
  pending w' = pending w /\
  App.airdropAmount (store w') = App.airdropAmount (store w) /\
  App.receiverAddress (store w') = App.receiverAddress (store w) /\
  App.lamportsToTransfer (store w') = App.lamportsToTransfer (store w) /\
  App.isLoadingBalance (store w') = App.isLoadingBalance (store w) /\
  App.isAirdropping (store w') = App.isAirdropping (store w) /\
  App.isSending (store w') = App.isSending (store w).
Proof.
  intros Hdisconnected. unfold exec, call, App.useEffect.
  rewrite Hdisconnected. cbn. repeat split; reflexivity.
Qed.

Lemma disconnect_resets_caches_witness :
  Wallet.connected Example.disconnected = false /\
  App.balance Example.stale = 3.5%float /\
  App.balance (store (exec Example.env (call (App.useEffect Example.disconnected))
                        (Example.world Example.stale))) = 0%float /\
  App.userTokens (store (exec Example.env (call (App.useEffect Example.disconnected))
                           (Example.world Example.stale))) = [] /\
  App.transactions (store (exec Example.env (call (App.useEffect Example.disconnected))
                             (Example.world Example.stale))) = [].
Proof.
  split; [reflexivity | split; [reflexivity |]].
  destruct (disconnect_resets_caches Example.env Example.disconnected
              (Example.world Example.stale) eq_refl) as (Hb & Hu & Ht & _).
  split; [exact Hb | split; [exact Hu | exact Ht]].
Defined.

(** ** Busy flags *)

(** C7. Each of the three handlers that raise a busy flag has lowered it
    when it ends, however its external calls settle: [handleShowBalance]
    ([isLoadingBalance]) and [handleAirdrop] ([isAirdropping]) when they
    get past their guard, and do nothing at all otherwise;
    [handleSendTokens] ([isSending]) in every case.  A balance refresh
    that was started without [await] lowers its flag when its
    continuation ends. *)
Theorem busy_flags_cleared
    (env : Env) (lib : Lib.t) (wallet : Wallet.t) (s : App.State)
    (w : World App.State) :
  (is_some (Wallet.publicKey wallet) = true ->
   App.isLoadingBalance
     (store (exec env (call (App.handleShowBalance wallet)) w)) = false)
  /\
  (Wallet.publicKey wallet = None ->
   exec env (call (App.handleShowBalance wallet)) w = w)
  /\
  (is_some (Wallet.publicKey wallet) = true ->
   truthy_string (App.airdropAmount s) = true ->
   App.isAirdropping
     (store (exec env (call (App.handleAirdrop lib wallet s)) w)) = false)
  /\
  (is_some (Wallet.publicKey wallet) && truthy_string (App.airdropAmount s)
     = false ->
   exec env (call (App.handleAirdrop lib wallet s)) w = w)
  /\
  App.isSending
    (store (exec env (call (App.handleSendTokens lib wallet s)) w)) = false
  /\
  (is_some (Wallet.publicKey wallet) = true ->
   exists continuation,
     pending (start (body (App.handleShowBalance wallet)) w)
       = pending w ++ [continuation] /\
     forall w2 : World App.State,
       App.isLoadingBalance (store (exec env continuation w2)) = false).
Proof.
  unfold exec, call.
  repeat split.
  - unfold App.handleShowBalance.
    destruct (Wallet.publicKey wallet) as [pk |]; [intros _ | discriminate].
    cbn. destruct (env _ (getBalance pk) _); reflexivity.
  - unfold App.handleShowBalance. intros ->. destruct w; reflexivity.
  - unfold App.handleAirdrop, App.handleShowBalance.
    destruct (Wallet.publicKey wallet) as [pk |]; [intros _ | discriminate].
    intros ->. cbn.
    destruct (env _ (requestAirdrop pk _) _) as [signature | e1]; cbn;
      [| reflexivity].
    destruct (env _ getLatestBlockhash _) as [latest | e2]; cbn;
      [| reflexivity].
    destruct (env _ (confirmTransaction _) _) as [[] | e3]; cbn;
      [| reflexivity].
    destruct (env _ (getBalance pk) _); reflexivity.
  - unfold App.handleAirdrop.
    destruct (Wallet.publicKey wallet) as [pk |]; cbn;
      [| intros _; destruct w; reflexivity].
    intros ->. destruct w; reflexivity.
  - unfold App.handleSendTokens, App.handleShowBalance, App.handleFetchHistory.
    destruct (Wallet.connected wallet); [| reflexivity].
    destruct (Wallet.publicKey wallet) as [pk |]; [| reflexivity].
    cbn.
    destruct (Lib.newPublicKey lib _) as [to | e0]; cbn; [| reflexivity].
    destruct (env _ (sendTransaction _) _) as [sig | e1]; cbn; [| reflexivity].
    destruct (env _ getLatestBlockhash _) as [latest | e2]; cbn; [| reflexivity].
    destruct (env _ (confirmTransaction _) _) as [[] | e3]; cbn; reflexivity.
  - unfold App.handleShowBalance.
    destruct (Wallet.publicKey wallet) as [pk |]; [intros _ | discriminate].
    cbn. eexists. split; [reflexivity |].
    intros w2. cbn. destruct (env _ (getBalance pk) _); reflexivity.
Qed.

(** With the example wallet, an entered amount and a node that rejects
    everything, no flag is left raised. *)
Lemma busy_flags_cleared_witness :
  App.isLoadingBalance
    (store (exec Example.failing (call (App.handleShowBalance Example.wallet))
              (Example.world Example.stale))) = false /\
  App.isAirdropping
    (store (exec Example.failing
              (call (App.handleAirdrop Example.lib Example.wallet Example.stale))
              (Example.world Example.stale))) = false /\
  App.isSending
    (store (exec Example.failing
              (call (App.handleSendTokens Example.lib Example.wallet Example.stale))
              (Example.world Example.stale))) = false.
Proof.
  destruct (busy_flags_cleared Example.failing Example.lib Example.wallet Example.stale
              (Example.world Example.stale)) as (H1 & _ & H3 & _ & H5 & _).
  split; [exact (H1 eq_refl) | split; [exact (H3 eq_refl eq_refl) | exact H5]].
Defined.

(** ** Failing calls and the caches *)

(** C6, as stated, fails: when the metadata of one account cannot be
    resolved, that failing call is not logged and the token list is
    replaced all the same, by the tokens of the other accounts. *)
Lemma metadata_failure_replaces_token_list :
  failed_resolutions
    (since (Example.world Example.stale)
       (exec Example.env (call (App.fetchTokens Example.wallet))
          (Example.world Example.stale))) = 1 /\
  App.userTokens Example.stale = [token_of Example.acct1 None] /\
  App.userTokens
    (store (exec Example.env (call (App.fetchTokens Example.wallet))
              (Example.world Example.stale)))
    = [token_of Example.acct1 (Some (TokenMetadata.make "Gold" "GLD"));
       token_of Example.acct3 None] /\
  filter (fun e => negb (is_request e))
    (since (Example.world Example.stale)
       (exec Example.env (call (App.fetchTokens Example.wallet))
          (Example.world Example.stale))) = [].
Proof. vm_compute. repeat split; reflexivity. Qed.

(** C6, amended. When the balance query, the account enumeration or the
    signature query is rejected, the handler logs the error and the cache
    it would have filled keeps its value: the balance refresh leaves the
    balance (and both lists) as they were, the other two leave the whole
    state as it was. *)
Theorem failed_fetch_keeps_cache
    (env : Env) (wallet : Wallet.t) (pk : PublicKey) (e : Error)
    (w : World App.State) :
  Wallet.publicKey wallet = Some pk ->
  (env _ (getBalance pk) (trace w) = Rejected e ->
   let w' := exec env (call (App.handleShowBalance wallet)) w in
   App.balance (store w') = App.balance (store w) /\
   App.userTokens (store w') = App.userTokens (store w) /\
   App.transactions (store w') = App.transactions (store w) /\
   since w w' = [Called (getBalance pk) (Rejected e);
                 Did (console_error "Error fetching balance:" e)])
  /\
  (env _ (getParsedTokenAccountsByOwner pk TOKEN_2022_PROGRAM_ID) (trace w)
     = Rejected e ->
   let w' := exec env (call (App.fetchTokens wallet)) w in
   store w' = store w /\
   since w w' = [Called (getParsedTokenAccountsByOwner pk TOKEN_2022_PROGRAM_ID)
                        (Rejected e);
                 Did (console_error "Token fetch failed" e)])
  /\
  (Wallet.connected wallet = true ->
   env _ (getSignaturesForAddress pk 10) (trace w) = Rejected e ->
   let w' := exec env (call (App.handleFetchHistory wallet)) w in
   store w' = store w /\
   since w w' = [Called (getSignaturesForAddress pk 10) (Rejected e);
                 Did (console_error "History fetch failed" e)]).
Proof.
  intros Hpk. unfold exec, call.
  split; [| split].
  - intros Hrejected. unfold App.handleShowBalance. rewrite Hpk. cbn.
    rewrite Hrejected. cbn. repeat split.
    apply since_app. cbn. rewrite <- app_assoc. reflexivity.
  - intros Hrejected. unfold App.fetchTokens. rewrite Hpk. cbn.
    rewrite Hrejected. cbn. split; [reflexivity |].
    apply since_app. cbn. rewrite <- app_assoc. reflexivity.
  - intros Hconnected Hrejected. unfold App.handleFetchHistory.
    rewrite Hpk, Hconnected. cbn.
    rewrite Hrejected. cbn. split; [reflexivity |].
    apply since_app. cbn. rewrite <- app_assoc. reflexivity.
Qed.

(** A node that rejects every request: the three caches of the example
    state survive the three refreshes. *)
Lemma failed_fetch_keeps_cache_witness :
  Wallet.publicKey Example.wallet = Some Example.alice /\
  App.balance
    (store (exec Example.failing (call (App.handleShowBalance Example.wallet))
              (Example.world Example.stale))) = 3.5%float /\
  store (exec Example.failing (call (App.fetchTokens Example.wallet))
           (Example.world Example.stale)) = Example.stale /\
  store (exec Example.failing (call (App.handleFetchHistory Example.wallet))
           (Example.world Example.stale)) = Example.stale.
Proof.
  split; [reflexivity |].
  destruct (failed_fetch_keeps_cache Example.failing Example.wallet
              Example.alice (mkError "failed") (Example.world Example.stale)
              eq_refl) as (Hbalance & Htokens & Hhistory).
  split; [exact (proj1 (Hbalance eq_refl)) |].
  split; [exact (proj1 (Htokens eq_refl)) |].
  exact (proj1 (Hhistory eq_refl eq_refl)).
Defined.

(** ** Signing the verification message *)

Ltac run_events :=
  apply since_app; cbn; rewrite <- ?app_assoc; reflexivity.

Lemma App_sign_events (env : Env) lib wallet (w : World App.State) :
  let w' := exec env (call (App.handleSignMessage lib wallet)) w in
  store w' = store w /\
  since w w' =
    sign_events env lib wallet (trace w)
      "Verify your account by signing this message"
      "Message signed and verified successfully!"
      "Sign message failed:" "Sign message failed"
      (mkError "Invalid signature!")
      (mkError "Wallet not connected or invalid")
      (mkError "Wallet not connected or invalid").
Proof.
  unfold exec, call, App.handleSignMessage, sign_events, sign_failure.
  destruct (Wallet.publicKey wallet) as [pk |];
    [destruct (Wallet.signMessage wallet) as [sign |] |]; cbn.
  2, 3: split; [reflexivity | run_events].
  destruct (env _ (sign _) (trace w)) as [signature | e] eqn:Hsign; cbn.
  2: split; [reflexivity | run_events].
  destruct (Lib.ed25519_verify lib signature _ _); cbn;
    (split; [reflexivity | run_events]).
Qed.

Lemma NewApp_sign_events (env : Env) lib wallet (w : World NewApp.State) :
  let w' := exec env (call (NewApp.handleSignMessage lib wallet)) w in
  store w' = store w /\
  since w w' =
    sign_events env lib wallet (trace w)
      "Verify your account by sigining message"
      "Sign Message successfuly"
      "Error while signing message: " "Error while signing message"
      (mkError "Message signature invalid!")
      (mkError "sign message not supported")
      (mkError "Wallet not connected!").
Proof.
  unfold exec, call, NewApp.handleSignMessage, sign_events, sign_failure.
  destruct (Wallet.publicKey wallet) as [pk |];
    [destruct (Wallet.signMessage wallet) as [sign |] |]; cbn.
  2, 3: split; [reflexivity | run_events].
  destruct (env _ (sign _) (trace w)) as [signature | e] eqn:Hsign; cbn.
  2: split; [reflexivity | run_events].
  destruct (Lib.ed25519_verify lib signature _ _); cbn;
    (split; [reflexivity | run_events]).
Qed.

(** Which alert such a run shows. *)
Lemma sign_events_alerts (env : Env) lib wallet (t : Trace)
    (text ok label fail : string) (invalid no_method no_key : Error) :
  ok <> fail ->
  let events :=
    sign_events env lib wallet t text ok label fail invalid no_method no_key in
  (In (Did (alert ok)) events <-> signature_verified env lib wallet t text) /\
  (In (Did (alert fail)) events <-> ~ signature_verified env lib wallet t text) /\
  (forall pk sign,
     Wallet.publicKey wallet = Some pk ->
     Wallet.signMessage wallet = Some sign ->
     hd_error events
       = Some (Called (sign (encode text)) (env _ (sign (encode text)) t))).
Proof.
  intros Hdistinct events. subst events.
  assert (Hne : forall a b : string, a <> b -> Did (alert a) <> Did (alert b))
    by (intros a b Hab Heq; injection Heq as Heq; contradiction).
  unfold sign_events, signature_verified, sign_failure.
  destruct (Wallet.publicKey wallet) as [pk |];
    [destruct (Wallet.signMessage wallet) as [sign |] |].
  - destruct (env _ (sign (encode text)) t) as [signature | e] eqn:Hsign;
      [destruct (Lib.ed25519_verify lib signature (encode text)
                   (Lib.toBytes lib pk)) eqn:Hverify |].
    + split; [| split].
      * split; [intros _; exists pk, sign, signature; auto |].
        intros _. right. left. reflexivity.
      * split.
        -- intros [H | [H | []]]; [discriminate H |].
           exfalso. first [exact (Hne _ _ Hdistinct H)
                       | exact (Hne _ _ Hdistinct (eq_sym H))].
        -- intros Hn. exfalso. apply Hn. exists pk, sign, signature. auto.
      * intros pk' sign' Hp Hs. injection Hp as <-. injection Hs as <-.
        cbn. rewrite Hsign. reflexivity.
    + split; [| split].
      * split.
        -- intros [H | [H | [H | []]]]; try discriminate H.
           exfalso. first [exact (Hne _ _ Hdistinct H)
                       | exact (Hne _ _ Hdistinct (eq_sym H))].
        -- intros (pk' & sign' & sig' & Hp & Hs & He & Hv).
           injection Hp as <-. injection Hs as <-. rewrite Hsign in He.
           injection He as <-. congruence.
      * split; [| intros _; right; right; left; reflexivity].
        intros _ (pk' & sign' & sig' & Hp & Hs & He & Hv).
        injection Hp as <-. injection Hs as <-. rewrite Hsign in He.
        injection He as <-. congruence.
      * intros pk' sign' Hp Hs. injection Hp as <-. injection Hs as <-.
        cbn. rewrite Hsign. reflexivity.
    + split; [| split].
      * split.
        -- intros [H | [H | [H | []]]]; try discriminate H.
           exfalso. first [exact (Hne _ _ Hdistinct H)
                       | exact (Hne _ _ Hdistinct (eq_sym H))].
        -- intros (pk' & sign' & sig' & Hp & Hs & He & Hv).
           injection Hp as <-. injection Hs as <-. rewrite Hsign in He.
           discriminate He.
      * split; [| intros _; right; right; left; reflexivity].
        intros _ (pk' & sign' & sig' & Hp & Hs & He & Hv).
        injection Hp as <-. injection Hs as <-. rewrite Hsign in He.
        discriminate He.
      * intros pk' sign' Hp Hs. injection Hp as <-. injection Hs as <-.
        cbn. rewrite Hsign. reflexivity.
  - split; [| split].
    + split.
      * intros [H | [H | []]]; try discriminate H.
        exfalso. first [exact (Hne _ _ Hdistinct H)
                       | exact (Hne _ _ Hdistinct (eq_sym H))].
      * intros (pk' & sign' & sig' & Hp & Hs & _). discriminate Hs.
    + split; [| intros _; right; left; reflexivity].
      intros _ (pk' & sign' & sig' & Hp & Hs & _). discriminate Hs.
    + intros pk' sign' _ Hs. discriminate Hs.
  - split; [| split].
    + split.
      * intros [H | [H | []]]; try discriminate H.
        exfalso. first [exact (Hne _ _ Hdistinct H)
                       | exact (Hne _ _ Hdistinct (eq_sym H))].
      * intros (pk' & sign' & sig' & Hp & _). discriminate Hp.
    + split; [| intros _; right; left; reflexivity].
      intros _ (pk' & sign' & sig' & Hp & _). discriminate Hp.
    + intros pk' sign' Hp _. discriminate Hp.
Qed.

(** C9, as stated, fails: the example wallet can sign and no signature
    ever failed verification, yet the handler notifies a failure, because
    the owner declined the request. *)
Lemma declined_signature_is_a_failure :
  is_some (Wallet.publicKey Example.wallet) = true /\
  is_some (Wallet.signMessage Example.wallet) = true /\
  since (Example.world App.initial)
    (exec Example.declining
       (call (App.handleSignMessage Example.lib Example.wallet))
       (Example.world App.initial))
  = [Called (signMessage (encode "Verify your account by signing this message"))
            (Rejected (mkError "User rejected the request."));
     Did (console_error "Sign message failed:"
            (mkError "User rejected the request."));
     Did (alert "Sign message failed")].
Proof. vm_compute. repeat split; reflexivity. Qed.

(** C9, amended. The handler asks the wallet to sign one fixed text.  It
    notifies success exactly when a signature came back and
    [ed25519.verify] accepted it for the encoded text and the wallet's key;
    in every other case (no public key, no [signMessage], a rejected
    signing request, a signature that does not verify) it notifies the
    generic failure.  The state is not touched.  Both versions. *)
Theorem sign_message_outcome (env : Env) (lib : Lib.t) (wallet : Wallet.t) :
  (forall w : World App.State,
     let w' := exec env (call (App.handleSignMessage lib wallet)) w in
     let text := "Verify your account by signing this message" in
     (In (Did (alert "Message signed and verified successfully!")) (since w w')
        <-> signature_verified env lib wallet (trace w) text) /\
     (In (Did (alert "Sign message failed")) (since w w')
        <-> ~ signature_verified env lib wallet (trace w) text) /\
     (forall pk sign,
        Wallet.publicKey wallet = Some pk ->
        Wallet.signMessage wallet = Some sign ->
        hd_error (since w w')
          = Some (Called (sign (encode text))
                         (env _ (sign (encode text)) (trace w)))) /\
     store w' = store w)
  /\
  (forall w : World NewApp.State,
     let w' := exec env (call (NewApp.handleSignMessage lib wallet)) w in
     let text := "Verify your account by sigining message" in
     (In (Did (alert "Sign Message successfuly")) (since w w')
        <-> signature_verified env lib wallet (trace w) text) /\
     (In (Did (alert "Error while signing message")) (since w w')
        <-> ~ signature_verified env lib wallet (trace w) text) /\
     (forall pk sign,
        Wallet.publicKey wallet = Some pk ->
        Wallet.signMessage wallet = Some sign ->
        hd_error (since w w')
          = Some (Called (sign (encode text))
                         (env _ (sign (encode text)) (trace w)))) /\
     store w' = store w).
Proof.
  split; intros w w' text; subst w'.
  - destruct (App_sign_events env lib wallet w) as [Hstore Hevents].
    cbv zeta in Hevents, Hstore. rewrite Hevents, Hstore.
    pose proof (sign_events_alerts env lib wallet (trace w) text
      "Message signed and verified successfully!"
      "Sign message failed:" "Sign message failed"
      (mkError "Invalid signature!")
      (mkError "Wallet not connected or invalid")
      (mkError "Wallet not connected or invalid")) as H.
    cbv zeta in H. destruct H as (Hok & Hfail & Hhead); [discriminate |].
    repeat split; try apply Hok; try apply Hfail; try apply Hhead.
  - destruct (NewApp_sign_events env lib wallet w) as [Hstore Hevents].
    cbv zeta in Hevents, Hstore. rewrite Hevents, Hstore.
    pose proof (sign_events_alerts env lib wallet (trace w) text
      "Sign Message successfuly"
      "Error while signing message: " "Error while signing message"
      (mkError "Message signature invalid!")
      (mkError "sign message not supported")
      (mkError "Wallet not connected!")) as H.
    cbv zeta in H. destruct H as (Hok & Hfail & Hhead); [discriminate |].
    repeat split; try apply Hok; try apply Hfail; try apply Hhead.
Qed.

(** The example wallet signs, the signature verifies, and success is
    notified. *)
Lemma sign_message_outcome_witness :
  In (Did (alert "Message signed and verified successfully!"))
     (since (Example.world App.initial)
        (exec Example.env
           (call (App.handleSignMessage Example.lib Example.wallet))
           (Example.world App.initial))).
Proof.
  apply (proj1 (sign_message_outcome Example.env Example.lib Example.wallet)
           (Example.world App.initial)).
  exists Example.alice, signMessage,
    (rev (encode "Verify your account by signing this message")).
  repeat split; reflexivity.
Defined.

(** ** Sending a transfer *)

(** C1. The mounted component has no balance check: with a balance of 3.5
    and an amount of 5 entered, [handleSendTokens] parses the recipient,
    builds the transfer of 5 * 10^9 lamports and asks the wallet to sign
    and submit it. *)
Theorem send_above_balance_is_submitted :
  App.balance Example.stale = 3.5%float /\
  App.lamportsToTransfer Example.stale = "5" /\
  ge (Lib.Number Example.lib (App.lamportsToTransfer Example.stale))
     (App.balance Example.stale) = true /\
  since (Example.world Example.stale)
    (exec Example.env
       (call (App.handleSendTokens Example.lib Example.wallet Example.stale))
       (Example.world Example.stale))
  = [Called (sendTransaction
               [Transfer.make Example.alice 5000000000%float Example.bob])
            (Fulfilled "transfer-signature");
     Did (console_log [LogString "Tx Signature:";
                       LogString "transfer-signature"]);
     Called getLatestBlockhash
            (Fulfilled (Blockhash.make "blockhash" 1000%float));
     Called (confirmTransaction
               (Strategy.make "blockhash" 1000%float "transfer-signature"))
            (Fulfilled tt);
     Did (alert "Transaction successful!")].
Proof. vm_compute. repeat split; reflexivity. Qed.



(** The other version does check: with the wallet connected, an amount
    not below the stored balance ends the handler with the
    insufficient-balance error, logged, before the recipient is parsed
    and before anything is asked of the wallet or the node. *)
Lemma NewApp_send_rejects_at_or_above_balance
    (env : Env) (lib : Lib.t) (wallet : Wallet.t) (s : NewApp.State)
    (w : World NewApp.State) (pk : PublicKey) :
  Wallet.connected wallet = true ->
  Wallet.publicKey wallet = Some pk ->
  ge (Lib.Number lib (NewApp.lamportsToTransfer s)) (NewApp.balance s) = true ->
  run env (call (NewApp.handleSendTokens lib wallet s)) w
  = (Normal tt,
     record (Did (console_error "Error while sending transation: "
                    (mkError "Insifficent balance to transfer"))) w).
Proof.
  intros Hconnected Hpk Hge.
  unfold call, NewApp.handleSendTokens.
  rewrite Hconnected, Hpk, Hge. reflexivity.
Qed.

Lemma NewApp_send_rejects_at_or_above_balance_witness :
  Wallet.connected Example.wallet = true /\
  Wallet.publicKey Example.wallet = Some Example.alice /\
  ge (Lib.Number Example.lib "5") 3.5%float = true /\
  run Example.env
    (call (NewApp.handleSendTokens Example.lib Example.wallet
             (NewApp.mkState 3.5%float "" "" "5" [] [] false false false)))
    (Example.world NewApp.initial)
  = (Normal tt,
     record (Did (console_error "Error while sending transation: "
                    (mkError "Insifficent balance to transfer")))
            (Example.world NewApp.initial)).
Proof.
  split; [reflexivity | split; [reflexivity | split; [reflexivity |]]].
  exact (NewApp_send_rejects_at_or_above_balance Example.env Example.lib
           Example.wallet
           (NewApp.mkState 3.5%float "" "" "5" [] [] false false false)
           (Example.world NewApp.initial) Example.alice
           eq_refl eq_refl eq_refl).
Defined.

(** ** Refreshing the balance *)

Lemma Prim2SF_LAMPORTS_PER_SOL :
  Prim2SF LAMPORTS_PER_SOL = S754_finite false 8388608000000000%positive (-23)%Z.
Proof. vm_compute. reflexivity. Qed.

Lemma Prim2SF_zero : Prim2SF 0%float = S754_zero false.
Proof. vm_compute. reflexivity. Qed.

(** Rounding a quotient of sign [+] never gives a number below zero. *)
Lemma round_not_negative (mx ex : Z) (lx : location) :
  SFltb (binary_round_aux prec emax false mx ex lx) (S754_zero false) = false.
Proof.
  unfold binary_round_aux.
  destruct (shr_fexp prec emax mx ex lx) as [mrs' e'].
  destruct (shr_fexp prec emax _ e' loc_Exact) as [mrs'' e''].
  destruct (shr_m mrs''); [reflexivity | | reflexivity].
  destruct (Z.leb e'' (Z.sub emax prec)); reflexivity.
Qed.

(** [x / LAMPORTS_PER_SOL] is not below zero when [x] is not. *)
Lemma div_not_negative (x : number) :
  negative x = false -> negative (x / LAMPORTS_PER_SOL)%float = false.
Proof.
  unfold negative.
  rewrite !ltb_spec, div_spec, Prim2SF_LAMPORTS_PER_SOL, Prim2SF_zero.
  destruct (Prim2SF x) as [sx | sx | | sx mx ex]; cbn.
  - destruct sx; reflexivity.
  - destruct sx; [discriminate | reflexivity].
  - reflexivity.
  - destruct sx; [discriminate | intros _].
    unfold SF64div, SFdiv.
    destruct (SFdiv_core_binary prec emax (Z.pos mx) ex
                (Z.pos 8388608000000000) (-23)%Z) as [[mz ez] lz].
    apply round_not_negative.
Qed.

(** C2. The refresh of [newApp.tsx] stores what [getBalance] returned as
    it is: for 3 500 000 000 lamports the balance becomes 3500000000, not
    3500000000 / LAMPORTS_PER_SOL = 3.5. *)
Theorem NewApp_refresh_stores_lamports :
  Example.env _ (getBalance Example.alice) [] = Fulfilled 3500000000%float /\
  NewApp.balance
    (store (exec Example.env
              (call (NewApp.handleShowBalance Example.wallet NewApp.initial))
              (Example.world NewApp.initial))) = 3500000000%float /\
  (3500000000 / LAMPORTS_PER_SOL)%float = 3.5%float /\
  PrimFloat.eqb
    (NewApp.balance
       (store (exec Example.env
                 (call (NewApp.handleShowBalance Example.wallet NewApp.initial))
                 (Example.world NewApp.initial))))
    (3500000000 / LAMPORTS_PER_SOL)%float = false.
Proof. vm_compute. repeat split; reflexivity. Qed.

(** In the mounted component a refresh that succeeds stores the lamports
    divided by [LAMPORTS_PER_SOL], which is not below zero when the
    lamports are not; the busy flag is lowered and nothing else changes. *)
Lemma App_refresh_scales_balance
    (env : Env) (wallet : Wallet.t) (w : World App.State)
    (pk : PublicKey) (lamports : number) :
  Wallet.publicKey wallet = Some pk ->
  env _ (getBalance pk) (trace w) = Fulfilled lamports ->
  let w' := exec env (call (App.handleShowBalance wallet)) w in
  App.balance (store w') = (lamports / LAMPORTS_PER_SOL)%float /\
  (negative lamports = false -> negative (App.balance (store w')) = false) /\
  since w w' = [Called (getBalance pk) (Fulfilled lamports)].
Proof.
  intros Hpk Hbalance. unfold exec, call, App.handleShowBalance.
  rewrite Hpk. cbn. rewrite Hbalance. cbn.
  split; [reflexivity | split; [apply div_not_negative | run_events]].
Qed.

Lemma App_refresh_scales_balance_witness :
  Wallet.publicKey Example.wallet = Some Example.alice /\
  negative 3500000000%float = false /\
  App.balance
    (store (exec Example.env (call (App.handleShowBalance Example.wallet))
              (Example.world App.initial))) = 3.5%float /\
  negative
    (App.balance
       (store (exec Example.env (call (App.handleShowBalance Example.wallet))
                 (Example.world App.initial)))) = false.
Proof.
  split; [reflexivity | split; [reflexivity |]].
  destruct (App_refresh_scales_balance Example.env Example.wallet
              (Example.world App.initial) Example.alice 3500000000%float
              eq_refl eq_refl) as (Hvalue & Hsign & _).
  split; [exact Hvalue | exact (Hsign eq_refl)].
Defined.

(** ** The transaction history *)

(** C3. A signature that the node reports without a confirmation status
    becomes a record whose status is [undefined], which is none of
    processed, confirmed, finalized and unknown.  Both versions. *)
Theorem history_status_outside_declared_type :
  Example.env _ (getSignaturesForAddress Example.alice 10) []
    = Fulfilled [Example.sig1; Example.sig2] /\
  ConfirmedSignatureInfo.confirmationStatus Example.sig2 = None /\
  map TransactionItem.status
    (App.transactions
       (store (exec Example.env (call (App.handleFetchHistory Example.wallet))
                 (Example.world App.initial))))
    = [status_of finalized; undefined] /\
  map TransactionItem.status
    (NewApp.transactions
       (store (exec Example.env (call (NewApp.handleFetchHistory Example.wallet))
                 (Example.world NewApp.initial))))
    = [status_of finalized; undefined] /\
  declared_status undefined = false.
Proof. vm_compute. repeat split; reflexivity. Qed.

(** What [item_of] makes of one signature. *)
Lemma item_of_facts (tx : ConfirmedSignatureInfo.t) :
  TransactionItem.signature (item_of tx) = ConfirmedSignatureInfo.signature tx /\
  (ConfirmedSignatureInfo.blockTime tx = None ->
   TransactionItem.time (item_of tx) = epoch) /\
  (forall status,
     ConfirmedSignatureInfo.confirmationStatus tx = Some status ->
     TransactionItem.status (item_of tx) = status_of status) /\
  (ConfirmedSignatureInfo.confirmationStatus tx = None ->
   TransactionItem.status (item_of tx) = undefined) /\
  TransactionItem.status (item_of tx) <> unknown.
Proof.
  unfold item_of; cbn. repeat split.
  - intros ->. reflexivity.
  - intros status ->. reflexivity.
  - intros ->. reflexivity.
  - destruct (ConfirmedSignatureInfo.confirmationStatus tx); discriminate.
Qed.

(** A history fetch that succeeds stores one record per signature
    returned, in the order returned: at most L records when the node
    returns at most the L it was asked for (10 in the mounted component,
    20 in the other).  A record has the epoch as its time when the
    signature has no block time, and a status of the declared type when
    the signature has a confirmation status. *)
Lemma history_maps_signatures
    (env : Env) (wallet : Wallet.t) (pk : PublicKey)
    (signatures : list ConfirmedSignatureInfo.t) :
  Wallet.connected wallet = true ->
  Wallet.publicKey wallet = Some pk ->
  (forall w : World App.State,
     env _ (getSignaturesForAddress pk 10) (trace w) = Fulfilled signatures ->
     let w' := exec env (call (App.handleFetchHistory wallet)) w in
     App.transactions (store w') = map item_of signatures /\
     (length signatures <= 10 -> length (App.transactions (store w')) <= 10))
  /\
  (forall w : World NewApp.State,
     env _ (getSignaturesForAddress pk 20) (trace w) = Fulfilled signatures ->
     let w' := exec env (call (NewApp.handleFetchHistory wallet)) w in
     NewApp.transactions (store w') = map item_of signatures /\
     (length signatures <= 20 -> length (NewApp.transactions (store w')) <= 20)).
Proof.
  intros Hconnected Hpk. unfold exec, call. split; intros w Hsignatures.
  - unfold App.handleFetchHistory. rewrite Hconnected, Hpk. cbn.
    rewrite Hsignatures. cbn. split; [reflexivity |].
    rewrite length_map. auto.
  - unfold NewApp.handleFetchHistory. rewrite Hconnected, Hpk. cbn.
    rewrite Hsignatures. cbn. split; [reflexivity |].
    rewrite length_map. auto.
Qed.

Lemma history_maps_signatures_witness :
  Wallet.connected Example.wallet = true /\
  Wallet.publicKey Example.wallet = Some Example.alice /\
  App.transactions
    (store (exec Example.env (call (App.handleFetchHistory Example.wallet))
              (Example.world App.initial)))
  = [item_of Example.sig1; item_of Example.sig2] /\
  TransactionItem.time (item_of Example.sig2) = epoch.
Proof.
  split; [reflexivity | split; [reflexivity |]].
  destruct (history_maps_signatures Example.env Example.wallet Example.alice
              [Example.sig1; Example.sig2] eq_refl eq_refl) as [HApp _].
  split; [exact (proj1 (HApp (Example.world App.initial) eq_refl)) |].
  reflexivity.
Defined.

(** ** Requesting an airdrop *)

(** C8. The handler of [newApp.tsx] only submits the request: with an
    amount of 1 entered it asks for 1 * 10^9 lamports and stops there.  It
    fetches no block reference, confirms nothing, does not refresh the
    balance, and the amount stays in the input field, on success and on
    failure alike. *)
Theorem NewApp_airdrop_only_requests :
  NewApp.airdropAmount Example.stale_new = "1" /\
  since (Example.world Example.stale_new)
    (exec Example.env
       (call (NewApp.handleAirdrop Example.lib Example.wallet Example.stale_new))
       (Example.world Example.stale_new))
  = [Called (requestAirdrop Example.alice 1000000000%float)
            (Fulfilled "airdrop-signature")] /\
  store (exec Example.env
           (call (NewApp.handleAirdrop Example.lib Example.wallet Example.stale_new))
           (Example.world Example.stale_new)) = Example.stale_new /\
  NewApp.airdropAmount
    (store (exec Example.failing
              (call (NewApp.handleAirdrop Example.lib Example.wallet
                       Example.stale_new))
              (Example.world Example.stale_new))) = "1".
Proof. vm_compute. repeat split; reflexivity. Qed.

(** The handler of the mounted component, once past its guard (a public
    key and a non-empty amount): it always begins by requesting
    amount * LAMPORTS_PER_SOL, and always ends with the input field
    cleared and the flag lowered.  When the request, the block reference
    and the confirmation all succeed, the confirmation is asked for that
    block reference and that signature, the balance is refreshed, and
    success is notified.  When the request is rejected, the failure is
    logged and notified and nothing else is asked. *)
Lemma App_airdrop_confirms_and_refreshes
    (env : Env) (lib : Lib.t) (wallet : Wallet.t) (s : App.State)
    (w : World App.State) (pk : PublicKey) :
  Wallet.publicKey wallet = Some pk ->
  truthy_string (App.airdropAmount s) = true ->
  let amount := (Lib.Number lib (App.airdropAmount s) * LAMPORTS_PER_SOL)%float in
  let w' := exec env (call (App.handleAirdrop lib wallet s)) w in
  App.airdropAmount (store w') = "" /\
  App.isAirdropping (store w') = false /\
  hd_error (since w w')
    = Some (Called (requestAirdrop pk amount)
                   (env _ (requestAirdrop pk amount) (trace w))) /\
  (forall signature latest,
     let strategy :=
       Strategy.make (Blockhash.blockhash latest)
         (Blockhash.lastValidBlockHeight latest) signature in
     let e1 := Called (requestAirdrop pk amount) (Fulfilled signature) in
     let e2 := Called getLatestBlockhash (Fulfilled latest) in
     let e3 := Called (confirmTransaction strategy) (Fulfilled tt) in
     let refresh := env _ (getBalance pk) (trace w ++ [e1; e2; e3]) in
     env _ (requestAirdrop pk amount) (trace w) = Fulfilled signature ->
     env _ getLatestBlockhash (trace w ++ [e1]) = Fulfilled latest ->
     env _ (confirmTransaction strategy) (trace w ++ [e1; e2]) = Fulfilled tt ->
     since w w'
       = [e1; e2; e3; Called (getBalance pk) refresh]
         ++ match refresh with
            | Fulfilled _ => []
            | Rejected e => [Did (console_error "Error fetching balance:" e)]
            end
         ++ [Did (alert "Airdrop successful!")] /\
     (forall lamports,
        refresh = Fulfilled lamports ->
        App.balance (store w') = (lamports / LAMPORTS_PER_SOL)%float)) /\
  (forall e,
     env _ (requestAirdrop pk amount) (trace w) = Rejected e ->
     since w w'
       = [Called (requestAirdrop pk amount) (Rejected e);
          Did (console_error "Airdrop failed:" e);
          Did (alert "Airdrop failed")]).
Proof.
  intros Hpk Hamount amount w'. subst w'.
  unfold exec, call, App.handleAirdrop, App.handleShowBalance.
  rewrite Hpk, Hamount. subst amount. cbn.
  split; [| split; [| split; [| split]]].
  - destruct (env _ (requestAirdrop pk _) _) as [sig | e1]; cbn;
      [| reflexivity].
    destruct (env _ getLatestBlockhash _) as [latest | e2]; cbn;
      [| reflexivity].
    destruct (env _ (confirmTransaction _) _) as [[] | e3]; cbn;
      [| reflexivity].
    destruct (env _ (getBalance pk) _); reflexivity.
  - destruct (env _ (requestAirdrop pk _) _) as [sig | e1]; cbn;
      [| reflexivity].
    destruct (env _ getLatestBlockhash _) as [latest | e2]; cbn;
      [| reflexivity].
    destruct (env _ (confirmTransaction _) _) as [[] | e3]; cbn;
      [| reflexivity].
    destruct (env _ (getBalance pk) _); reflexivity.
  - destruct (env _ (requestAirdrop pk _) (trace w)) as [sig | e1]
      eqn:Hrequest; cbn.
    2: { eapply since_head. cbn. rewrite <- !app_assoc. reflexivity. }
    destruct (env _ getLatestBlockhash _) as [latest | e2]; cbn.
    2: { eapply since_head. cbn. rewrite <- !app_assoc. reflexivity. }
    destruct (env _ (confirmTransaction _) _) as [[] | e3]; cbn.
    2: { eapply since_head. cbn. rewrite <- !app_assoc. reflexivity. }
    destruct (env _ (getBalance pk) _); cbn;
      (eapply since_head; cbn; rewrite <- !app_assoc; reflexivity).
  - intros signature latest Hrequest Hlatest Hconfirm.
    rewrite Hrequest. cbn. rewrite Hlatest. cbn.
    rewrite <- !app_assoc. cbn [app].
    rewrite Hconfirm. cbn. rewrite <- !app_assoc. cbn [app].
    destruct (env _ (getBalance pk) _) as [lamports | e]; cbn.
    + split; [run_events |]. intros l Hl. injection Hl as <-. reflexivity.
    + split; [run_events |]. intros l Hl. discriminate Hl.
  - intros e Hrequest. rewrite Hrequest. cbn. run_events.
Qed.

Lemma App_airdrop_confirms_and_refreshes_witness :
  Wallet.publicKey Example.wallet = Some Example.alice /\
  truthy_string (App.airdropAmount Example.stale) = true /\
  App.airdropAmount
    (store (exec Example.env
              (call (App.handleAirdrop Example.lib Example.wallet Example.stale))
              (Example.world Example.stale))) = "" /\
  since (Example.world Example.stale)
    (exec Example.env
       (call (App.handleAirdrop Example.lib Example.wallet Example.stale))
       (Example.world Example.stale))
  = [Called (requestAirdrop Example.alice 1000000000%float)
            (Fulfilled "airdrop-signature");
     Called getLatestBlockhash
            (Fulfilled (Blockhash.make "blockhash" 1000%float));
     Called (confirmTransaction
               (Strategy.make "blockhash" 1000%float "airdrop-signature"))
            (Fulfilled tt);
     Called (getBalance Example.alice) (Fulfilled 3500000000%float);
     Did (alert "Airdrop successful!")].
Proof.
  split; [reflexivity | split; [reflexivity |]].
  destruct (App_airdrop_confirms_and_refreshes Example.env Example.lib
              Example.wallet Example.stale (Example.world Example.stale)
              Example.alice eq_refl eq_refl)
    as (Hcleared & _ & _ & Hsuccess & _).
  split; [exact Hcleared |].
  exact (proj1 (Hsuccess "airdrop-signature"
                  (Blockhash.make "blockhash" 1000%float)
                  eq_refl eq_refl eq_refl)).
Defined.

(** ** Calls that are not awaited *)



(** ** A session *)


(** ** The other version, in general *)

(** Whatever the node returns, the refresh of [newApp.tsx] stores it
    unscaled; [isBalanceGet] is raised for good and [isFeatchingBalance]
    is lowered again. *)
Lemma NewApp_refresh_stores_what_the_node_returns
    (env : Env) (wallet : Wallet.t) (s : NewApp.State)
    (w : World NewApp.State) (pk : PublicKey) (lamports : number) :
  Wallet.publicKey wallet = Some pk ->
  env _ (getBalance pk) (trace w) = Fulfilled lamports ->
  let w' := exec env (call (NewApp.handleShowBalance wallet s)) w in
  NewApp.balance (store w') = lamports /\
  NewApp.isBalanceGet (store w') = true /\
  NewApp.isFeatchingBalance (store w') = false /\
  since w w' = [Called (getBalance pk) (Fulfilled lamports);
                Did (console_log [LogBool (NewApp.isFeatchingBalance s)])].
Proof.
  intros Hpk Hbalance. unfold exec, call, NewApp.handleShowBalance.
  rewrite Hpk. cbn. rewrite Hbalance. cbn.
  repeat split. run_events.
Qed.

Lemma NewApp_refresh_stores_what_the_node_returns_witness :
  Wallet.publicKey Example.wallet = Some Example.alice /\
  NewApp.balance
    (store (exec Example.faucet
              (call (NewApp.handleShowBalance Example.wallet NewApp.initial))
              (Example.world NewApp.initial))) = 2500000000%float.
Proof.
  split; [reflexivity |].
  exact (proj1 (NewApp_refresh_stores_what_the_node_returns Example.faucet
                  Example.wallet NewApp.initial (Example.world NewApp.initial)
                  Example.alice 2500000000%float eq_refl eq_refl)).
Defined.

(** The airdrop handler of [newApp.tsx] with a public key: the request
    for amount * LAMPORTS_PER_SOL is the only thing it asks; a rejection is
    logged and notified; the amount entered stays, and [isAirdroping] is
    lowered. *)
Lemma NewApp_airdrop_requests_and_stops
    (env : Env) (lib : Lib.t) (wallet : Wallet.t) (s : NewApp.State)
    (w : World NewApp.State) (pk : PublicKey) :
  Wallet.publicKey wallet = Some pk ->
  let amount :=
    (Lib.Number lib (NewApp.airdropAmount s) * LAMPORTS_PER_SOL)%float in
  let answer := env _ (requestAirdrop pk amount) (trace w) in
  let w' := exec env (call (NewApp.handleAirdrop lib wallet s)) w in
  NewApp.airdropAmount (store w') = NewApp.airdropAmount (store w) /\
  NewApp.balance (store w') = NewApp.balance (store w) /\
  NewApp.isAirdroping (store w') = false /\
  since w w'
    = Called (requestAirdrop pk amount) answer ::
      match answer with
      | Fulfilled _ => []
      | Rejected e =>
          [Did (console_error "Error while airdroping: " e);
           Did (alert "Error while airdroping")]
      end.
Proof.
  intros Hpk amount answer w'. subst w' answer amount.
  unfold exec, call, NewApp.handleAirdrop.
  rewrite Hpk. cbn.
  destruct (env _ (requestAirdrop pk _) (trace w)) as [signature | e]; cbn;
    (repeat split; run_events).
Qed.

Lemma NewApp_airdrop_requests_and_stops_witness :
  Wallet.publicKey Example.wallet = Some Example.alice /\
  since (Example.world Example.stale_new)
    (exec Example.failing
       (call (NewApp.handleAirdrop Example.lib Example.wallet Example.stale_new))
       (Example.world Example.stale_new))
  = [Called (requestAirdrop Example.alice 1000000000%float)
            (Rejected (mkError "failed"));
     Did (console_error "Error while airdroping: " (mkError "failed"));
     Did (alert "Error while airdroping")].
Proof.
  split; [reflexivity |].
  destruct (NewApp_airdrop_requests_and_stops Example.failing Example.lib
              Example.wallet Example.stale_new (Example.world Example.stale_new)
              Example.alice eq_refl) as (_ & _ & _ & Hevents).
  exact Hevents.
Defined.

(** A wallet without [signMessage] is told that signing failed, and
    nothing is asked of it. *)
Example missing_capability_is_a_failure :
  since (Example.world App.initial)
    (exec Example.env
       (call (App.handleSignMessage Example.lib Example.wallet_no_sign))
       (Example.world App.initial))
  = [Did (console_error "Sign message failed:"
            (mkError "Wallet not connected or invalid"));
     Did (alert "Sign message failed")].
Proof. reflexivity. Qed.

(** * Further properties *)

Lemma since_same {State : Type} (w w' : World State) :
  trace w' = trace w -> since w w' = [].
Proof. intros H. apply since_app. rewrite app_nil_r. exact H. Qed.

(** ** More on the token list *)

(** [x || d] is not empty when [d] is not. *)
Lemma string_or_not_empty (x : option string) (d : string) :
  d <> "" -> string_or x d <> "".
Proof.
  intros Hd. unfold string_or, truthy_string.
  destruct x as [v |]; [| exact Hd].
  destruct (String.eqb v "") eqn:Hv; [exact Hd |].
  apply String.eqb_neq. exact Hv.
Qed.

Lemma token_of_named (a : TokenAccount.t) (metadata : option TokenMetadata.t) :
  Token.name (token_of a metadata) <> "" /\
  Token.symbol (token_of a metadata) <> "".
Proof.
  split; cbn; apply string_or_not_empty; discriminate.
Qed.

(** Every token of the list has a name and a symbol that are not empty:
    where the metadata has none, the fallbacks are used.  Both versions. *)
Theorem tokens_are_named
    (env : Env) (wallet : Wallet.t) (pk : PublicKey)
    (accounts : list TokenAccount.t) :
  Wallet.publicKey wallet = Some pk ->
  (forall (w : World App.State) token,
     env _ (getParsedTokenAccountsByOwner pk TOKEN_2022_PROGRAM_ID) (trace w)
       = Fulfilled accounts ->
     In token (App.userTokens
                 (store (exec env (call (App.fetchTokens wallet)) w))) ->
     Token.name token <> "" /\ Token.symbol token <> "")
  /\
  (forall (w : World NewApp.State) token,
     env _ (getParsedTokenAccountsByOwner pk TOKEN_2022_PROGRAM_ID) (trace w)
       = Fulfilled accounts ->
     In token (NewApp.userTokens
                 (store (exec env (call (NewApp.fetchTokens wallet)) w))) ->
     Token.name token <> "" /\ Token.symbol token <> "").
Proof.
  intros Hpk. split; intros w token Henv Hin.
  - destruct (App_fetchTokens_run env wallet w pk accounts Hpk Henv) as [Htok _].
    cbv zeta in Htok. rewrite Htok in Hin.
    destruct (resolutions_sound env accounts _ token Hin) as (a & m & _ & _ & ->).
    apply token_of_named.
  - destruct (NewApp_fetchTokens_run env wallet w pk accounts Hpk Henv) as [Htok _].
    cbv zeta in Htok. rewrite Htok in Hin.
    destruct (resolutions_sound env accounts _ token Hin) as (a & m & _ & _ & ->).
    apply token_of_named.
Qed.

Lemma tokens_are_named_witness :
  Wallet.publicKey Example.wallet = Some Example.alice /\
  Token.name (token_of Example.acct3 None) = "Unknown Token" /\
  Token.name (token_of Example.acct3 None) <> "" /\
  Token.symbol (token_of Example.acct3 None) <> "".
Proof.
  split; [reflexivity | split; [reflexivity |]].
  destruct (tokens_are_named Example.env Example.wallet Example.alice
              [Example.acct1; Example.acct2; Example.acct3] eq_refl)
    as [HApp _].
  apply (HApp (Example.world App.initial) (token_of Example.acct3 None) eq_refl).
  right. left. reflexivity.
Defined.





(** Resolving metadata shows no alert. *)
Lemma resolutions_alerts (env : Env) (accounts : list TokenAccount.t) (t : Trace) :
  alerts (snd (resolutions env t accounts)) = [].
Proof.
  revert t. induction accounts as [| a rest IH]; intros t; simpl.
  - reflexivity.
  - specialize (IH (t ++ [Called (getTokenMetadata (TokenAccount.pubkey a))
      (env _ (getTokenMetadata (TokenAccount.pubkey a)) t)])).
    destruct (resolutions env _ rest) as [tokens events]. exact IH.
Qed.

(** The three refreshes of the mounted component never show an alert,
    leave nothing pending, and write only to their own cells: the balance
    refresh to the balance and its flag, the token refresh to the token
    list, the history refresh to the transaction list.  This holds
    whatever the wallet is and however the node answers. *)
Theorem refreshes_are_silent
    (env : Env) (wallet : Wallet.t) (w : World App.State) :
  (let w' := exec env (call (App.handleShowBalance wallet)) w in
   App.userTokens (store w') = App.userTokens (store w) /\
   App.transactions (store w') = App.transactions (store w) /\
   forms_untouched (store w) (store w') /\
   pending w' = pending w /\
   alerts (since w w') = [])
  /\
  (let w' := exec env (call (App.fetchTokens wallet)) w in
   App.balance (store w') = App.balance (store w) /\
   App.transactions (store w') = App.transactions (store w) /\
   App.isLoadingBalance (store w') = App.isLoadingBalance (store w) /\
   forms_untouched (store w) (store w') /\
   pending w' = pending w /\
   alerts (since w w') = [])
  /\
  (let w' := exec env (call (App.handleFetchHistory wallet)) w in
   App.balance (store w') = App.balance (store w) /\
   App.userTokens (store w') = App.userTokens (store w) /\
   App.isLoadingBalance (store w') = App.isLoadingBalance (store w) /\
   forms_untouched (store w) (store w') /\
   pending w' = pending w /\
   alerts (since w w') = []).
Proof.
  unfold exec, call, forms_untouched. split; [| split].
  - unfold App.handleShowBalance.
    destruct (Wallet.publicKey wallet) as [pk |]; cbn.
    2: { repeat split. rewrite since_same by reflexivity. reflexivity. }
    destruct (env _ (getBalance pk) (trace w)) as [lamports | e]; cbn;
      repeat split;
      (erewrite since_app; [| cbn; rewrite <- ?app_assoc; reflexivity]);
      reflexivity.
  - unfold App.fetchTokens.
    destruct (Wallet.publicKey wallet) as [pk |]; cbn.
    2: { repeat split. rewrite since_same by reflexivity. reflexivity. }
    destruct (env _ (getParsedTokenAccountsByOwner pk _) (trace w))
      as [accounts | e] eqn:Henv; cbn.
    2: { repeat split.
         erewrite since_app; [| cbn; rewrite <- ?app_assoc; reflexivity].
         reflexivity. }
    rewrite run_body, run_try_catch, run_bind, run_token_promises. cbn.
    repeat split.
    erewrite since_app; [| cbn; rewrite <- ?app_assoc; reflexivity].
    cbn. apply resolutions_alerts.
  - unfold App.handleFetchHistory.
    destruct (Wallet.connected wallet); cbn.
    2: { repeat split. rewrite since_same by reflexivity. reflexivity. }
    destruct (Wallet.publicKey wallet) as [pk |]; cbn.
    2: { repeat split. rewrite since_same by reflexivity. reflexivity. }
    destruct (env _ (getSignaturesForAddress pk 10) (trace w))
      as [signatures | e]; cbn;
      repeat split;
      (erewrite since_app; [| cbn; rewrite <- ?app_assoc; reflexivity]);
      reflexivity.
Qed.

Ltac events_are :=
  erewrite since_app by (cbn; rewrite <- ?app_assoc; reflexivity).


(** ** More on sending *)

(** In the mounted component, a transfer with the wallet disconnected,
    without a public key, or to an address that does not parse asks
    nothing of the wallet or the node: the failure is notified, the caches
    keep their values and [isSending] ends false. *)
Theorem App_send_stops_before_the_wallet
    (env : Env) (lib : Lib.t) (wallet : Wallet.t) (s : App.State)
    (w : World App.State) :
  Wallet.connected wallet = false \/
  Wallet.publicKey wallet = None \/
  rejected (Lib.newPublicKey lib (App.receiverAddress s)) = true ->
  let w' := exec env (call (App.handleSendTokens lib wallet s)) w in
  requests (since w w') = 0 /\
  alerts (since w w') = ["Transaction failed"] /\
  App.isSending (store w') = false /\
  App.balance (store w') = App.balance (store w) /\
  App.userTokens (store w') = App.userTokens (store w) /\
  App.transactions (store w') = App.transactions (store w) /\
  pending w' = pending w.
Proof.
  intros Hwhy. unfold exec, call, App.handleSendTokens, requests.
  destruct (Wallet.connected wallet) eqn:Hconnected; cbn.
  2: { events_are. repeat split. }
  destruct (Wallet.publicKey wallet) as [pk |] eqn:Hpk; cbn.
  2: { events_are. repeat split. }
  destruct (Lib.newPublicKey lib (App.receiverAddress s)) as [to | e]; cbn.
  - destruct Hwhy as [H | [H | H]]; discriminate H.
  - events_are. repeat split.
Qed.



(** ** Amounts that are not numbers *)

Lemma SFcompare_refl (x : spec_float) :
  x <> S754_nan -> SFcompare x x = Some Eq.
Proof.
  destruct x as [s | s | | s m e]; intros Hx; cbn.
  - reflexivity.
  - destruct s; reflexivity.
  - contradiction.
  - destruct s; rewrite Z.compare_refl, Pos.compare_cont_refl; reflexivity.
Qed.

Lemma is_nan_Prim2SF (x : number) :
  is_nan x = true -> Prim2SF x = S754_nan.
Proof.
  unfold is_nan. rewrite FloatAxioms.eqb_spec. unfold SFeqb.
  destruct (Prim2SF x) as [s | s | | s m e] eqn:Hx; try reflexivity;
    rewrite SFcompare_refl by discriminate; discriminate.
Qed.

(** [a >= b] is false as soon as one side is [NaN]. *)
Lemma ge_nan (a b : number) :
  is_nan a = true \/ is_nan b = true -> ge a b = false.
Proof.
  unfold ge. rewrite leb_spec. unfold SFleb.
  intros [H | H]; apply is_nan_Prim2SF in H; rewrite H.
  - destruct (Prim2SF b); reflexivity.
  - reflexivity.
Qed.

(** In [newApp.tsx], an amount that is not a number (or a balance that is
    not one) gets past the balance check: the first thing the handler does
    is then to parse the recipient, and to log the lamports when that
    succeeds; the insufficient-balance error is not raised. *)
Theorem NewApp_send_nan_passes_the_check
    (env : Env) (lib : Lib.t) (wallet : Wallet.t) (s : NewApp.State)
    (w : World NewApp.State) (pk : PublicKey) :
  Wallet.connected wallet = true ->
  Wallet.publicKey wallet = Some pk ->
  is_nan (Lib.Number lib (NewApp.lamportsToTransfer s)) = true \/
  is_nan (NewApp.balance s) = true ->
  hd_error (since w (exec env (call (NewApp.handleSendTokens lib wallet s)) w))
  = Some
      match Lib.newPublicKey lib (NewApp.reciverAddress s) with
      | Fulfilled _ =>
          Did (console_log
                 [LogNumber (Lib.Number lib (NewApp.lamportsToTransfer s)
                             * LAMPORTS_PER_SOL)%float])
      | Rejected e => Did (console_error "Error while sending transation: " e)
      end.
Proof.
  intros Hconnected Hpk Hnan.
  unfold exec, call, NewApp.handleSendTokens.
  rewrite Hconnected, Hpk, (ge_nan _ _ Hnan).
  destruct (Lib.newPublicKey lib (NewApp.reciverAddress s)) as [to | e]; cbn.
  2: { eapply since_head. cbn. reflexivity. }
  destruct (env _ (sendTransaction _) _) as [sig | e1]; cbn;
    (eapply since_head; cbn; rewrite <- !app_assoc; reflexivity).
Qed.

(** In [newApp.tsx], sending never changes the state and starts no
    refresh; it makes at most one request; it never shows an alert for a
    failure, and the only alert it can show follows a signature returned by
    the wallet, without any confirmation being awaited. *)
Theorem NewApp_send_is_quiet
    (env : Env) (lib : Lib.t) (wallet : Wallet.t) (s : NewApp.State)
    (w : World NewApp.State) :
  let w' := exec env (call (NewApp.handleSendTokens lib wallet s)) w in
  store w' = store w /\
  pending w' = pending w /\
  requests (since w w') <= 1 /\
  (alerts (since w w') = [] \/ alerts (since w w') = ["Transation sended!!"]) /\
  (alerts (since w w') = ["Transation sended!!"] ->
   exists transaction sig,
     In (Called (sendTransaction transaction) (Fulfilled sig)) (since w w')).
Proof.
  unfold exec, call, NewApp.handleSendTokens, requests.
  destruct (Wallet.connected wallet).
  2: { cbn. events_are. cbn. repeat split; auto. discriminate. }
  destruct (Wallet.publicKey wallet) as [pk |].
  2: { cbn. events_are. cbn. repeat split; auto. discriminate. }
  destruct (ge (Lib.Number lib (NewApp.lamportsToTransfer s)) (NewApp.balance s)).
  1: { cbn. events_are. cbn. repeat split; auto. discriminate. }
  destruct (Lib.newPublicKey lib (NewApp.reciverAddress s)) as [to | e]; cbn.
  2: { events_are. cbn. repeat split; auto. discriminate. }
  destruct (env _ (sendTransaction _) _) as [sig | e1] eqn:Hsend; cbn.
  - events_are. cbn. repeat split; auto.
    intros _. eexists. exists sig. right. right. left. reflexivity.
  - events_are. cbn. repeat split; auto. discriminate.
Qed.

(** ** Effects *)

(** [newApp.tsx] refreshes the balance when it is mounted: without a
    public key this shows the error alert at once, asks nothing of the
    node, and still records the balance as fetched. *)
Theorem NewApp_mount_without_wallet
    (env : Env) (wallet : Wallet.t) (s : NewApp.State)
    (w : World NewApp.State) :
  Wallet.publicKey wallet = None ->
  NewApp.isBalanceGet s = false ->
  let w' := exec env (call (NewApp.useEffect wallet s)) w in
  since w w'
    = [Did (console_error "Error while featching balance: "
              (mkError "Wallet not connected!"));
       Did (alert "Error while featching balance")] /\
  NewApp.isBalanceGet (store w') = true /\
  NewApp.isFeatchingBalance (store w') = false /\
  NewApp.balance (store w') = NewApp.balance (store w) /\
  pending w' = pending w.
Proof.
  intros Hpk Hget. unfold exec, call, NewApp.useEffect, NewApp.handleShowBalance.
  rewrite Hpk, Hget. cbn. repeat split. events_are. reflexivity.
Qed.



Lemma alerts_app (t1 t2 : Trace) :
  alerts (t1 ++ t2) = alerts t1 ++ alerts t2.
Proof.
  induction t1 as [| e t1 IH]; [reflexivity |].
  destruct e as [R c r | [label error | args | text]]; cbn; rewrite ?IH;
    reflexivity.
Qed.

(** The effect of the mounted component with the wallet connected.
    Without a public key it does nothing.  With one, it starts the three
    refreshes: until they are resumed, no request has settled, the caches
    keep their values and the balance is marked as loading; once the three
    have been resumed nothing is pending, the loading mark is gone, no
    alert was shown and the forms were not touched, however the node
    answered. *)
Theorem connect_starts_three_refreshes
    (env : Env) (wallet : Wallet.t) (w : World App.State) :
  Wallet.connected wallet = true ->
  (Wallet.publicKey wallet = None ->
   exec env (call (App.useEffect wallet)) w = w)
  /\
  (is_some (Wallet.publicKey wallet) = true ->
   let w1 := exec env (call (App.useEffect wallet)) w in
   trace w1 = trace w /\
   length (pending w1) = length (pending w) + 3 /\
   App.isLoadingBalance (store w1) = true /\
   App.balance (store w1) = App.balance (store w) /\
   App.userTokens (store w1) = App.userTokens (store w) /\
   App.transactions (store w1) = App.transactions (store w) /\
   forms_untouched (store w) (store w1))
  /\
  (is_some (Wallet.publicKey wallet) = true ->
   pending w = [] ->
   let w2 := settle env 3 (exec env (call (App.useEffect wallet)) w) in
   pending w2 = [] /\
   App.isLoadingBalance (store w2) = false /\
   forms_untouched (store w) (store w2) /\
   alerts (since w w2) = []).
Proof.
  intros Hconnected.
  unfold exec, call, App.useEffect, App.handleShowBalance, App.fetchTokens,
    App.handleFetchHistory, forms_untouched.
  rewrite Hconnected.
  destruct (Wallet.publicKey wallet) as [pk |]; cbn.
  2: { split; [intros _; destruct w; reflexivity |].
       split; intros H; discriminate H. }
  split; [intros H; discriminate H |].
  split.
  - intros _. repeat split. rewrite !length_app. cbn. lia.
  - intros _ Hpending. destruct w as [st tr pd]. cbn in Hpending. subst pd.
    cbn. unfold exec. cbn.
    destruct (env _ (getBalance pk) tr) as [lamports | e1]; cbn;
      (destruct (env _ (getParsedTokenAccountsByOwner pk _) _)
         as [accounts | e2]; cbn;
       [rewrite !run_body, !run_try_catch, !run_bind, !run_token_promises; cbn
       |]);
      (destruct (env _ (getSignaturesForAddress pk 10) _)
         as [signatures | e3]; cbn);
      repeat split;
      (rewrite <- !app_assoc, skipn_app, skipn_all, Nat.sub_diag; cbn;
       rewrite ?alerts_app; cbn; rewrite ?resolutions_alerts; reflexivity).
Qed.

(** ** Shortened signatures and addresses *)

Lemma length_append (a b : string) :
  String.length (a ++ b)%string = String.length a + String.length b.
Proof. induction a as [| c a IH]; cbn; [reflexivity | rewrite IH; reflexivity]. Qed.

Lemma substring_length (s : string) (k m : nat) :
  k + m <= String.length s -> String.length (substring k m s) = m.
Proof.
  revert k m. induction s as [| c s IH]; intros k m H; cbn in H.
  - destruct k, m; cbn; lia.
  - destruct k as [| k]; cbn.
    + destruct m as [| m]; cbn; [reflexivity |]. rewrite IH by lia. reflexivity.
    + apply IH. lia.
Qed.

Lemma substring_all (s : string) (m : nat) :
  String.length s <= m -> substring 0 m s = s.
Proof.
  revert m. induction s as [| c s IH]; intros m H; cbn in H.
  - destruct m; reflexivity.
  - destruct m as [| m]; [lia |]. cbn. rewrite IH by lia. reflexivity.
Qed.

Lemma substring_split (s : string) (k : nat) :
  k <= String.length s ->
  s = (substring 0 k s ++ substring k (String.length s - k) s)%string.
Proof.
  revert k. induction s as [| c s IH]; intros k H; cbn in H.
  - destruct k; [reflexivity | lia].
  - destruct k as [| k].
    + cbn. rewrite substring_all by lia. reflexivity.
    + cbn. f_equal. apply IH. lia.
Qed.

(** A shortened text begins with the first n characters of the text and
    ends with its last n; it has 2n + 3 characters when the text has at
    least n, and repeats the whole text on both sides of the dots when the
    text has at most n. *)
Theorem shorten_shape (n : nat) (s : string) :
  (exists rest, s = (slice_first n s ++ rest)%string) /\
  (exists front, s = (front ++ slice_last n s)%string) /\
  (n <= String.length s -> String.length (shorten n s) = n + 3 + n) /\
  (String.length s <= n -> shorten n s = (s ++ "..." ++ s)%string).
Proof.
  unfold shorten, slice_first, slice_last.
  split; [| split; [| split]].
  - destruct (Nat.le_gt_cases n (String.length s)) as [H | H].
    + eexists. apply (substring_split s n H).
    + exists "". rewrite substring_all by lia.
      clear. induction s as [| c s IH]; cbn; [reflexivity | rewrite <- IH; reflexivity].
  - destruct (Nat.le_gt_cases n (String.length s)) as [H | H].
    + exists (substring 0 (String.length s - n) s).
      pose proof (substring_split s (String.length s - n)) as Hsplit.
      replace (String.length s - (String.length s - n)) with n in Hsplit by lia.
      apply Hsplit. lia.
    + exists "". replace (String.length s - n) with 0 by lia.
      rewrite substring_all by lia. reflexivity.
  - intros H. rewrite !length_append, !substring_length by lia. cbn. lia.
  - intros H. replace (String.length s - n) with 0 by lia.
    rewrite !substring_all by lia. reflexivity.
Qed.

Lemma shorten_shape_witness :
  8 <= String.length "5VERv8NMvzbJMEkV8xnrLkEaWRtSz9CosKDYjCJjBRnbJLgp8uirBgmQpjKhoR4tjF3ZpRzrFmBV6UjKdiSZkQUW" /\
  shorten 8 "5VERv8NMvzbJMEkV8xnrLkEaWRtSz9CosKDYjCJjBRnbJLgp8uirBgmQpjKhoR4tjF3ZpRzrFmBV6UjKdiSZkQUW"
    = "5VERv8NM...diSZkQUW" /\
  String.length (shorten 8 "5VERv8NMvzbJMEkV8xnrLkEaWRtSz9CosKDYjCJjBRnbJLgp8uirBgmQpjKhoR4tjF3ZpRzrFmBV6UjKdiSZkQUW") = 8 + 3 + 8 /\
  shorten 8 "sig1" = "sig1...sig1".
Proof.
  split; [cbn; lia | split; [reflexivity |]].
  destruct (shorten_shape 8 "5VERv8NMvzbJMEkV8xnrLkEaWRtSz9CosKDYjCJjBRnbJLgp8uirBgmQpjKhoR4tjF3ZpRzrFmBV6UjKdiSZkQUW")
    as (_ & _ & Hlong & _).
  destruct (shorten_shape 8 "sig1") as (_ & _ & _ & Hshort).
  split; [apply Hlong; cbn; lia | apply Hshort; cbn; lia].
Defined.

(** ** Badges *)

(** The three confirmation statuses get three different classes, none of
    them the class of "unknown"; a status that is [undefined] gets the
    class of "unknown" and no text. *)
Theorem badges_tell_statuses_apart :
  (forall a b : TransactionConfirmationStatus,
     StatusBadge.className (StatusBadge.render (status_of a))
       = StatusBadge.className (StatusBadge.render (status_of b)) ->
     a = b) /\
  (forall a : TransactionConfirmationStatus,
     StatusBadge.className (StatusBadge.render (status_of a))
       <> StatusBadge.className (StatusBadge.render unknown)) /\
  StatusBadge.render undefined
    = StatusBadge.make
        (StatusBadge.className (StatusBadge.render unknown)) None.
Proof.
  split; [| split].
  - intros a b H. destruct a, b; try reflexivity; vm_compute in H; discriminate H.
  - intros a H. destruct a; vm_compute in H; discriminate H.
  - reflexivity.
Qed.

(** After a history fetch that succeeds the table has one row per
    signature returned, each with the shortened signature; the row of a
    signature without confirmation status has an empty badge in the colours
    of "unknown", the others the badge of their status; the notice for an
    empty history shows exactly when no signature was returned. *)
Theorem history_table_rows
    (env : Env) (wallet : Wallet.t) (pk : PublicKey)
    (signatures : list ConfirmedSignatureInfo.t) (w : World App.State) :
  Wallet.connected wallet = true ->
  Wallet.publicKey wallet = Some pk ->
  env _ (getSignaturesForAddress pk 10) (trace w) = Fulfilled signatures ->
  let page := store (exec env (call (App.handleFetchHistory wallet)) w) in
  length (Page.history_rows page) = length signatures /\
  Page.no_transactions_notice page = Nat.eqb (length signatures) 0 /\
  forall tx, In tx signatures ->
    exists badge,
      In (shorten 8 (ConfirmedSignatureInfo.signature tx), badge)
         (Page.history_rows page) /\
      (ConfirmedSignatureInfo.confirmationStatus tx = None ->
       StatusBadge.children badge = None /\
       StatusBadge.className badge
         = StatusBadge.className (StatusBadge.render unknown)) /\
      (forall status,
         ConfirmedSignatureInfo.confirmationStatus tx = Some status ->
         badge = StatusBadge.render (status_of status)).
Proof.
  intros Hconnected Hpk Hsignatures page. subst page.
  unfold exec, call, App.handleFetchHistory, Page.history_rows,
    Page.no_transactions_notice.
  rewrite Hconnected, Hpk. cbn. rewrite Hsignatures. cbn.
  rewrite !length_map. split; [reflexivity | split; [reflexivity |]].
  intros tx Hin.
  exists (StatusBadge.render
            (non_null (ConfirmedSignatureInfo.confirmationStatus tx))).
  split; [| split].
  - rewrite map_map. apply in_map_iff. exists tx. split; [reflexivity | exact Hin].
  - intros ->. split; reflexivity.
  - intros status ->. reflexivity.
Qed.

(** ** Buttons while a request is outstanding *)


(** ** The page after a disconnection *)

(** After the effect has run with the wallet disconnected, the page has
    no token row and no history row, shows both notices for empty lists,
    and its send button is disabled. *)
Theorem page_after_disconnect
    (env : Env) (wallet : Wallet.t) (w : World App.State) :
  Wallet.connected wallet = false ->
  let page := store (exec env (call (App.useEffect wallet)) w) in
  Page.send_disabled wallet page = true /\
  Page.no_tokens_notice page = true /\
  Page.no_transactions_notice page = true /\
  Page.token_rows page = [] /\
  Page.history_rows page = [] /\
  Page.balance_shown page = Page.balance_shown (store w) /\
  Page.airdrop_disabled page = Page.airdrop_disabled (store w).
Proof.
  intros Hdisconnected. unfold exec, call, App.useEffect, Page.send_disabled.
  rewrite Hdisconnected. cbn. rewrite orb_true_r. repeat split.
Qed.

(** ** Instances *)

Lemma App_send_stops_before_the_wallet_witness :
  Wallet.connected Example.disconnected = false /\
  requests
    (since (Example.world Example.stale)
       (exec Example.env
          (call (App.handleSendTokens Example.lib Example.disconnected
                   Example.stale))
          (Example.world Example.stale))) = 0 /\
  alerts
    (since (Example.world Example.stale)
       (exec Example.env
          (call (App.handleSendTokens Example.lib Example.disconnected
                   Example.stale))
          (Example.world Example.stale))) = ["Transaction failed"].
Proof.
  split; [reflexivity |].
  destruct (App_send_stops_before_the_wallet Example.env Example.lib
              Example.disconnected Example.stale (Example.world Example.stale)
              (or_introl eq_refl)) as (Hrequests & Halerts & _).
  split; [exact Hrequests | exact Halerts].
Defined.


Lemma NewApp_send_nan_passes_the_check_witness :
  Wallet.connected Example.wallet = true /\
  Wallet.publicKey Example.wallet = Some Example.alice /\
  is_nan (Lib.Number Example.lib "five") = true /\
  hd_error
    (since (Example.world NewApp.initial)
       (exec Example.env
          (call (NewApp.handleSendTokens Example.lib Example.wallet
                   (NewApp.mkState 3500000000%float "" "nowhere" "five"
                      [] [] false false false)))
          (Example.world NewApp.initial)))
  = Some (Did (console_error "Error while sending transation: "
                 (mkError "Invalid public key input"))).
Proof.
  split; [reflexivity | split; [reflexivity | split; [reflexivity |]]].
  exact (NewApp_send_nan_passes_the_check Example.env Example.lib
           Example.wallet
           (NewApp.mkState 3500000000%float "" "nowhere" "five"
              [] [] false false false)
           (Example.world NewApp.initial) Example.alice
           eq_refl eq_refl (or_introl eq_refl)).
Defined.

Lemma NewApp_mount_without_wallet_witness :
  Wallet.publicKey Example.disconnected = None /\
  NewApp.isBalanceGet NewApp.initial = false /\
  alerts
    (since (Example.world NewApp.initial)
       (exec Example.env
          (call (NewApp.useEffect Example.disconnected NewApp.initial))
          (Example.world NewApp.initial)))
  = ["Error while featching balance"].
Proof.
  split; [reflexivity | split; [reflexivity |]].
  destruct (NewApp_mount_without_wallet Example.env Example.disconnected
              NewApp.initial (Example.world NewApp.initial) eq_refl eq_refl)
    as (Hevents & _).
  cbv zeta in Hevents. rewrite Hevents. reflexivity.
Defined.

Lemma connect_starts_three_refreshes_witness :
  Wallet.connected Example.wallet = true /\
  length (pending (exec Example.env (call (App.useEffect Example.wallet))
                     (Example.world App.initial))) = 3 /\
  pending (settle Example.env 3
             (exec Example.env (call (App.useEffect Example.wallet))
                (Example.world App.initial))) = [].
Proof.
  split; [reflexivity |].
  destruct (connect_starts_three_refreshes Example.env Example.wallet
              (Example.world App.initial) eq_refl)
    as (_ & Hstarted & Hsettled).
  split.
  - exact (proj1 (proj2 (Hstarted eq_refl))).
  - exact (proj1 (Hsettled eq_refl eq_refl)).
Defined.

Lemma history_table_rows_witness :
  Wallet.connected Example.wallet = true /\
  Wallet.publicKey Example.wallet = Some Example.alice /\
  length
    (Page.history_rows
       (store (exec Example.env (call (App.handleFetchHistory Example.wallet))
                 (Example.world App.initial)))) = 2.
Proof.
  split; [reflexivity | split; [reflexivity |]].
  exact (proj1 (history_table_rows Example.env Example.wallet Example.alice
                  [Example.sig1; Example.sig2] (Example.world App.initial)
                  eq_refl eq_refl eq_refl)).
Defined.


Lemma page_after_disconnect_witness :
  Wallet.connected Example.disconnected = false /\
  Page.no_tokens_notice Example.stale = false /\
  Page.no_tokens_notice
    (store (exec Example.env (call (App.useEffect Example.disconnected))
              (Example.world Example.stale))) = true /\
  Page.history_rows
    (store (exec Example.env (call (App.useEffect Example.disconnected))
              (Example.world Example.stale))) = [].
Proof.
  split; [reflexivity | split; [reflexivity |]].
  destruct (page_after_disconnect Example.env Example.disconnected
              (Example.world Example.stale) eq_refl)
    as (_ & Htokens & _ & _ & Hrows & _).
  split; [exact Htokens | exact Hrows].
Defined.

(** The two busy flags of [newApp.tsx] are lowered when their handler
    ends, on every path: with or without a public key, and whether the
    request is fulfilled or rejected. *)
Theorem NewApp_busy_flags_cleared
    (env : Env) (lib : Lib.t) (wallet : Wallet.t) (s : NewApp.State)
    (w : World NewApp.State) :
  NewApp.isFeatchingBalance
    (store (exec env (call (NewApp.handleShowBalance wallet s)) w)) = false /\
  NewApp.isAirdroping
    (store (exec env (call (NewApp.handleAirdrop lib wallet s)) w)) = false /\
  (rejected
     match Wallet.publicKey wallet with
     | Some pk => env _ (getBalance pk) (trace w)
     | None => Rejected (mkError "Wallet not connected!")
     end = true ->
   NewApp.balance
     (store (exec env (call (NewApp.handleShowBalance wallet s)) w))
     = NewApp.balance (store w) /\
   alerts (since w (exec env (call (NewApp.handleShowBalance wallet s)) w))
     = ["Error while featching balance"]).
Proof.
  unfold exec, call, NewApp.handleShowBalance, NewApp.handleAirdrop.
  destruct (Wallet.publicKey wallet) as [pk |]; cbn.
  - destruct (env _ (getBalance pk) (trace w)) as [lamports | e1]; cbn;
      (destruct (env _ (requestAirdrop pk _) (trace w)) as [sig | e2]; cbn);
      repeat split; try discriminate;
      (events_are; reflexivity).
  - repeat split. events_are. reflexivity.
Qed.
